(** * Country cache service: refresh pipeline, estimator and read API

    A shallow embedding of [countryController.js] and of the part of the
    relational store (schema of [db.js]) that its statements touch.

    Modelling conventions.
    - JavaScript numbers are exact rationals ([Q]); the rounding of IEEE
      doubles and of the DECIMAL columns is not represented.  Populations
      are integers.
    - [Math.random] is an explicit supply of draws, consumed in call order.
    - Strings are [string]; letter case is ASCII letter case.
    - The rate object returned by the exchange gateway is a finite map from
      currency codes to numbers.
    - A handler is a computation over an explicit [world]: the committed
      store, the transaction open on the connection, the summary image on
      disk and the response written so far.  Exceptions keep the state
      reached when they were raised, as in JavaScript.
    - Store round trips and the image renderer may fail; an oracle of the
      [runtime] says which ones do. *)

From stdpp Require Import base strings gmap.
From Stdlib Require Import ZArith QArith Qround List Bool Lia Ascii String.
From Stdlib Require Import Sorting.Sorted Sorting.Permutation.
Import ListNotations.

Local Open Scope string_scope.

(* ===================================================================== *)
(** * JavaScript primitives *)
(* ===================================================================== *)

Module JS.

(** ASCII code tests used by the case mappings. *)
Definition is_upper (c : ascii) : bool :=
  let n := Ascii.N_of_ascii c in (65 <=? n)%N && (n <=? 90)%N.

Definition is_lower (c : ascii) : bool :=
  let n := Ascii.N_of_ascii c in (97 <=? n)%N && (n <=? 122)%N.

Definition upper_char (c : ascii) : ascii :=
  if is_lower c then Ascii.ascii_of_N (Ascii.N_of_ascii c - 32) else c.

Definition lower_char (c : ascii) : ascii :=
  if is_upper c then Ascii.ascii_of_N (Ascii.N_of_ascii c + 32) else c.

(** [s.toUpperCase()] *)
Fixpoint toUpperCase (s : string) : string :=
  match s with
  | EmptyString => EmptyString
  | String c r => String (upper_char c) (toUpperCase r)
  end.

(** [s.toLowerCase()], also the store's [LOWER(s)] *)
Fixpoint toLowerCase (s : string) : string :=
  match s with
  | EmptyString => EmptyString
  | String c r => String (lower_char c) (toLowerCase r)
  end.

(** Truthiness of a string: every string but the empty one. *)
Definition truthy_string (s : string) : bool :=
  match s with EmptyString => false | _ => true end.

(** Truthiness of an optional string ([undefined] and [null] are falsy). *)
Definition truthy (o : option string) : bool :=
  match o with Some s => truthy_string s | None => false end.

(** [o || null] on an optional string. *)
Definition or_null (o : option string) : option string :=
  if truthy o then o else None.

(** [s.split(sep)] for a one-character separator: the pieces between the
    separators, always at least one piece. *)
Fixpoint split (sep : ascii) (s : string) : list string :=
  match s with
  | EmptyString => [EmptyString]
  | String c r =>
      if Ascii.eqb c sep then EmptyString :: split sep r
      else match split sep r with
           | p :: ps => String c p :: ps
           | [] => [String c EmptyString]
           end
  end.

(** [s.slice(0, n)] *)
Definition slice0 (n : nat) (s : string) : string := String.substring 0 n s.

(** [s.replace(a, b)] for one-character [a] and [b]: first occurrence only. *)
Fixpoint replace_first (a b : ascii) (s : string) : string :=
  match s with
  | EmptyString => EmptyString
  | String c r =>
      if Ascii.eqb c a then String b r else String c (replace_first a b r)
  end.

(** [x === 0] on numbers. *)
Definition is_zero (x : Q) : bool := Qeq_bool x 0.

(** [s.includes(needle)] *)
Definition includes (needle s : string) : bool :=
  match String.index 0 needle s with Some _ => true | None => false end.

(** [o || ''] on an optional string. *)
Definition or_empty (o : option string) : string :=
  match o with Some s => s | None => EmptyString end.

End JS.

(* ===================================================================== *)
(** * Randomness *)
(* ===================================================================== *)

(** The supply behind [Math.random]: the sequence of draws and how many of
    them have been consumed. *)
Record rand := mkRand { draws : nat -> Q; used : nat }.

Definition Math_random (g : rand) : Q * rand :=
  (draws g (used g), mkRand (draws g) (S (used g))).

(** [Math.random] returns a number in [[0, 1)]. *)
Definition unit_draws (g : rand) : Prop :=
  forall n, 0 <= draws g n /\ draws g n < 1.

(* ===================================================================== *)
(** * GDP estimator *)
(* ===================================================================== *)

(** [getRandomMultiplier(min, max)]:
    [Math.floor(Math.random() * (max - min + 1)) + min] *)
Definition getRandomMultiplier_range (min max : Z) (g : rand) : Z * rand :=
  let (u, g') := Math_random g in
  ((Qfloor (u * inject_Z (max - min + 1)) + min)%Z, g').

(** The call with the default arguments [min = 1000], [max = 2000]. *)
Definition getRandomMultiplier : rand -> Z * rand :=
  getRandomMultiplier_range 1000 2000.

(** [computeEstimatedGdp(population, exchangeRate)]; [None] is [null]. *)
Definition computeEstimatedGdp (population : Z) (exchangeRate : option Q)
    (g : rand) : option Q * rand :=
  match exchangeRate with
  | None => (None, g)
  | Some rate =>
      if JS.is_zero rate then (None, g)
      else if (population =? 0)%Z then (Some 0, g)
      else
        let (multiplier, g') := getRandomMultiplier g in
        (Some (inject_Z (population * multiplier) / rate), g')
  end.

(* ===================================================================== *)
(** * The two gateways *)
(* ===================================================================== *)

Module Gateway.

(** One entry of a descriptor's [currencies] array. *)
Record currency := mkCurrency { code : option string }.

(** A country descriptor as the country directory returns it. *)
Record country := mkCountry {
  name : string;
  capital : option string;
  region : option string;
  population : option N;
  flag : option string;
  currencies : option (list currency)
}.

(** Body of the exchange-rate response: nothing usable; an object whose
    [rates] member is a mapping of rates, or is missing or falsy ([None]);
    or an object whose [rates] member is truthy without being such a
    mapping: a number or [true], which have no property of their own, or
    an array of numbers, whose indices are its properties.  [own] is what
    [hasOwnProperty] and indexing see of that value. *)
Inductive exchange_data :=
| ExchangeEmpty
| ExchangeObject (rates : option (gmap string Q))
| ExchangeOtherRates (own : gmap string Q).

(** Body of the country response: nothing, something that is not an
    array, or the array of descriptors. *)
Inductive country_data :=
| CountryEmpty
| CountryNotArray
| CountryArray (descriptors : list country).

(** Outcome of one [axios.get]: rejected with an error that may carry
    the request configuration ([error.config.url]), or resolved. *)
Inductive outcome (A : Type) :=
| Rejected (config_url : option string)
| Resolved (data : A).
Arguments Rejected {A} config_url.
Arguments Resolved {A} data.

End Gateway.

(* ===================================================================== *)
(** * The relational store *)
(* ===================================================================== *)

Module Store.

(** A row of [countries] (the surrogate [id] column is left out: no
    statement of the controller reads or writes it).  [exchange_rate] and
    [estimated_gdp] hold the number handed to the statement; the rounding
    of their DECIMAL(10,4) and DECIMAL(20,2) columns is not represented,
    so nothing below is stated about the digits a later read returns for
    a number that does not fit them. *)
Record country_row := mkRow {
  name : string;
  capital : option string;
  region : option string;
  population : Z;
  currency_code : option string;
  exchange_rate : option Q;
  estimated_gdp : option Q;
  flag_url : option string;
  last_refreshed_at : option string
}.

(** The row [id = 1] of [status]. *)
Record status_row := mkStatus {
  total_countries : Z;
  status_last_refreshed_at : option string
}.

Record database := mkDb {
  countries : list country_row;
  status : option status_row
}.

(** [LOWER(a) = LOWER(b)]; also equality under the case-insensitive
    collation of the unique key on [name]. *)
Definition same_name (a b : string) : bool :=
  String.eqb (JS.toLowerCase a) (JS.toLowerCase b).

(** [ON DUPLICATE KEY UPDATE ...]: every column but [name] takes the
    value of the row that was to be inserted. *)
Definition overwrite (old new : country_row) : country_row :=
  mkRow (name old) (capital new) (region new) (population new)
        (currency_code new) (exchange_rate new) (estimated_gdp new)
        (flag_url new) (last_refreshed_at new).

(** [INSERT INTO countries ... ON DUPLICATE KEY UPDATE ...] *)
Fixpoint upsert (v : country_row) (t : list country_row) : list country_row :=
  match t with
  | [] => [v]
  | r :: t' =>
      if same_name (name r) (name v) then overwrite r v :: t'
      else r :: upsert v t'
  end.

(** [UPDATE status SET total_countries = ?, last_refreshed_at = ? WHERE id = 1] *)
Definition update_status (total : Z) (ts : string)
    (s : option status_row) : option status_row :=
  match s with
  | Some _ => Some (mkStatus total (Some ts))
  | None => None
  end.

(** ** ORDER BY *)

Fixpoint insert_by {A : Type} (le : A -> A -> bool) (x : A) (l : list A) : list A :=
  match l with
  | [] => [x]
  | y :: l' => if le x y then x :: l else y :: insert_by le x l'
  end.

(** A stable sort of the result set by the ordering [le]. *)
Definition order_by {A : Type} (le : A -> A -> bool) (l : list A) : list A :=
  fold_right (insert_by le) [] l.

(** Ascending order of a nullable number: NULL sorts before any value. *)
Definition null_first_le (a b : option Q) : bool :=
  match a, b with
  | None, _ => true
  | Some _, None => false
  | Some x, Some y => Qle_bool x y
  end.

Inductive direction := ASC | DESC.

(** The direction keyword of an ORDER BY clause. *)
Definition direction_of_keyword (kw : string) : option direction :=
  if String.eqb kw "ASC" then Some ASC
  else if String.eqb kw "DESC" then Some DESC
  else None.

(** [ORDER BY estimated_gdp ASC] and [ORDER BY estimated_gdp DESC]:
    the descending order is the ascending one reversed, so NULL is last. *)
Definition gdp_le (d : direction) (a b : option Q) : bool :=
  match d with
  | ASC => null_first_le a b
  | DESC => null_first_le b a
  end.

(** [ORDER BY name ASC] under the case-insensitive collation. *)
Definition name_le (a b : string) : bool :=
  String.leb (JS.toLowerCase a) (JS.toLowerCase b).

Inductive ordering :=
| ByName
| ByGdp (d : direction).

Definition row_le (o : ordering) (a b : country_row) : bool :=
  match o with
  | ByName => name_le (name a) (name b)
  | ByGdp d => gdp_le d (estimated_gdp a) (estimated_gdp b)
  end.

(** [LOWER(column) = LOWER(?)] on a nullable column: NULL matches nothing. *)
Definition lower_eq (column : option string) (param : string) : bool :=
  match column with
  | Some v => same_name v param
  | None => false
  end.

(** [SELECT name, estimated_gdp FROM countries ORDER BY estimated_gdp DESC LIMIT 5] *)
Definition select_top5 (t : list country_row) : list (string * option Q) :=
  map (fun r => (name r, estimated_gdp r))
      (firstn 5 (order_by (row_le (ByGdp DESC)) t)).

(** [SELECT * FROM countries WHERE LOWER(name) = LOWER(?)] *)
Definition select_by_name (n : string) (t : list country_row) : list country_row :=
  List.filter (fun r => same_name (name r) n) t.

(** [DELETE FROM countries WHERE LOWER(name) = LOWER(?)]: the remaining
    rows and [affectedRows]. *)
Definition delete_by_name (n : string) (t : list country_row)
    : list country_row * nat :=
  (List.filter (fun r => negb (same_name (name r) n)) t,
   List.length (List.filter (fun r => same_name (name r) n) t)).

(** The conditions [getCountries] can put in its WHERE clause. *)
Inductive condition :=
| RegionIs (param : string)        (* LOWER(region) = LOWER(?) *)
| CurrencyIs (param : string).     (* LOWER(currency_code) = LOWER(?) *)

Definition holds (c : condition) (r : country_row) : bool :=
  match c with
  | RegionIs p => lower_eq (region r) p
  | CurrencyIs p => lower_eq (currency_code r) p
  end.

(** [SELECT * FROM countries WHERE c1 AND c2 ... ORDER BY o] *)
Definition select_where (conditions : list condition) (o : ordering)
    (t : list country_row) : list country_row :=
  order_by (row_le o)
    (List.filter (fun r => forallb (fun c => holds c r) conditions) t).

(** The unique key on [name]: no two rows agree on the name up to case. *)
Fixpoint unique_names (t : list country_row) : Prop :=
  match t with
  | [] => True
  | r :: t' =>
      (forall r', In r' t' -> same_name (name r) (name r') = false)
      /\ unique_names t'
  end.

End Store.

(* ===================================================================== *)
(** * HTTP responses *)
(* ===================================================================== *)

Module Http.

(** The JSON bodies the handlers write. *)
Inductive body :=
| ErrorBody (error : string) (details : option string)
| RefreshBody (message : string) (total_countries : Z) (last_refreshed_at : string)
| RowsBody (rows : list Store.country_row)
| RowBody (row : Store.country_row)
| MessageBody (message : string).

Record response := mkResponse { status_code : Z; payload : body }.

End Http.

(* ===================================================================== *)
(** * Handlers as computations over the world *)
(* ===================================================================== *)

(** What [generateSummaryImage] renders into [cache/summary.png]. *)
Record summary_image := mkImage {
  image_total : Z;
  image_top : list (string * option Q);
  image_refreshed : string
}.

(** A pooled connection: the working copy of its open transaction, if
    any, and whether it went back to the pool. *)
Record session := mkSession {
  tx : option Store.database;
  released : bool
}.

Record world := mkWorld {
  committed : Store.database;        (* what every other client sees *)
  connection : option session;       (* the handler's [connection] variable *)
  store_calls : nat;                 (* store round trips made so far *)
  rng : rand;
  image : option summary_image;
  response : option Http.response    (* what was written on [res] *)
}.

(** What the environment decides during one request. *)
Record runtime := mkRuntime {
  exchange_get : Gateway.outcome Gateway.exchange_data;
  country_get : Gateway.outcome Gateway.country_data;
  country_settles_first : bool;      (* which rejection [Promise.all] sees first *)
  now_iso : string;                  (* [new Date().toISOString()] *)
  store_faults : nat -> bool;        (* does the n-th round trip fail? *)
  render_fault : bool                (* does writing the image fail? *)
}.

Inductive exn :=
| AxiosError (config_url : option string)
| API_FAILURE
| StoreError
| RenderError.

Inductive result (A : Type) :=
| Returned (a : A)
| Thrown (e : exn).
Arguments Returned {A} a.
Arguments Thrown {A} e.

Definition M (A : Type) : Type := world -> result A * world.

Definition ret {A : Type} (a : A) : M A := fun w => (Returned a, w).

Definition bind {A B : Type} (c : M A) (k : A -> M B) : M B :=
  fun w =>
    match c w with
    | (Returned a, w') => k a w'
    | (Thrown e, w') => (Thrown e, w')
    end.

Definition throw {A : Type} (e : exn) : M A := fun w => (Thrown e, w).

(** [try { c } catch (error) { h }], also [promise.catch(h)]. *)
Definition try_catch {A : Type} (c : M A) (h : exn -> M A) : M A :=
  fun w =>
    match c w with
    | (Returned a, w') => (Returned a, w')
    | (Thrown e, w') => h e w'
    end.

Declare Scope js_scope.
Delimit Scope js_scope with js.
Notation "x <- c ;; k" := (bind c (fun x => k))
  (at level 100, c at next level, right associativity) : js_scope.
Notation "c ;; k" := (bind c (fun _ => k))
  (at level 100, right associativity) : js_scope.
Local Open Scope js_scope.

(** [for (const x of l) { s = body(x, s) }] *)
Fixpoint for_of {A S : Type} (l : list A) (body : A -> S -> M S) (s : S) : M S :=
  match l with
  | [] => ret s
  | x :: l' => s' <- body x s ;; for_of l' body s'
  end.

Definition set_committed (d : Store.database) (w : world) : world :=
  mkWorld d (connection w) (store_calls w) (rng w) (image w) (response w).
Definition set_connection (c : option session) (w : world) : world :=
  mkWorld (committed w) c (store_calls w) (rng w) (image w) (response w).
Definition set_store_calls (n : nat) (w : world) : world :=
  mkWorld (committed w) (connection w) n (rng w) (image w) (response w).
Definition set_rng (g : rand) (w : world) : world :=
  mkWorld (committed w) (connection w) (store_calls w) g (image w) (response w).
Definition set_image (i : option summary_image) (w : world) : world :=
  mkWorld (committed w) (connection w) (store_calls w) (rng w) i (response w).
Definition set_response (r : option Http.response) (w : world) : world :=
  mkWorld (committed w) (connection w) (store_calls w) (rng w) (image w) r.

(** Run a computation that only uses the random supply. *)
Definition with_rng {A : Type} (f : rand -> A * rand) : M A :=
  fun w => let (a, g) := f (rng w) in (Returned a, set_rng g w).

(** [res.status(status).json(body)] *)
Definition res_status_json (status : Z) (b : Http.body) : M unit :=
  fun w => (Returned tt, set_response (Some (Http.mkResponse status b)) w).

(** [res.json(body)] *)
Definition res_json (b : Http.body) : M unit := res_status_json 200 b.

(** [sendError(res, status, error, details)]: [details] is attached only
    when truthy. *)
Definition sendError (status : Z) (error : string) (details : option string) : M unit :=
  res_status_json status (Http.ErrorBody error (JS.or_null details)).

(** One round trip to the store: it is counted, and fails when the oracle
    says so, in which case the statement has no effect. *)
Definition round_trip {A : Type} (rt : runtime) (c : M A) : M A :=
  fun w =>
    let n := store_calls w in
    let w1 := set_store_calls (S n) w in
    if store_faults rt n then (Thrown StoreError, w1) else c w1.

(** [pool.query(stmt)]: a statement in autocommit mode. *)
Definition pool_query {A : Type} (rt : runtime)
    (stmt : Store.database -> A * Store.database) : M A :=
  round_trip rt (fun w =>
    let (a, d) := stmt (committed w) in (Returned a, set_committed d w)).

(** [connection = await pool.getConnection()] *)
Definition pool_getConnection (rt : runtime) : M unit :=
  round_trip rt (fun w =>
    (Returned tt, set_connection (Some (mkSession None false)) w)).

(** [connection.beginTransaction()]: the transaction starts from the
    committed contents. *)
Definition beginTransaction (rt : runtime) : M unit :=
  round_trip rt (fun w =>
    match connection w with
    | Some s => (Returned tt,
                 set_connection (Some (mkSession (Some (committed w)) (released s))) w)
    | None => (Thrown StoreError, w)
    end).

(** [connection.query(stmt)]: inside a transaction the statement works on
    the transaction's copy, otherwise it commits at once. *)
Definition connection_query {A : Type} (rt : runtime)
    (stmt : Store.database -> A * Store.database) : M A :=
  round_trip rt (fun w =>
    match connection w with
    | Some (mkSession (Some d) rel) =>
        let (a, d') := stmt d in
        (Returned a, set_connection (Some (mkSession (Some d') rel)) w)
    | Some (mkSession None _) =>
        let (a, d') := stmt (committed w) in (Returned a, set_committed d' w)
    | None => (Thrown StoreError, w)
    end).

(** [connection.commit()]: the transaction's copy becomes the committed
    contents. *)
Definition commit (rt : runtime) : M unit :=
  round_trip rt (fun w =>
    match connection w with
    | Some (mkSession (Some d) rel) =>
        (Returned tt, set_connection (Some (mkSession None rel)) (set_committed d w))
    | Some (mkSession None _) => (Returned tt, w)
    | None => (Thrown StoreError, w)
    end).

(** [connection.rollback()]: the transaction's copy is dropped. *)
Definition rollback : M unit :=
  fun w =>
    match connection w with
    | Some s => (Returned tt, set_connection (Some (mkSession None (released s))) w)
    | None => (Returned tt, w)
    end.

(** [connection.release()] *)
Definition release : M unit :=
  fun w =>
    match connection w with
    | Some s => (Returned tt, set_connection (Some (mkSession (tx s) true)) w)
    | None => (Returned tt, w)
    end.

(* ===================================================================== *)
(** * countryController.js *)
(* ===================================================================== *)

(** [Promise.all([axios.get(EXCHANGE_API_URL), axios.get(COUNTRY_API_URL)])]:
    both bodies, or the rejection that arrives first. *)
Definition Promise_all (rt : runtime)
    : M (Gateway.exchange_data * Gateway.country_data) :=
  match exchange_get rt, country_get rt with
  | Gateway.Resolved e, Gateway.Resolved c => ret (e, c)
  | Gateway.Rejected u, Gateway.Resolved _ => throw (AxiosError u)
  | Gateway.Resolved _, Gateway.Rejected u => throw (AxiosError u)
  | Gateway.Rejected ue, Gateway.Rejected uc =>
      throw (AxiosError (if country_settles_first rt then uc else ue))
  end.

(** [exchangeRes.data && exchangeRes.data.rates]: the test of the
    handler is truthiness, so any truthy [rates] member goes through. *)
Definition exchange_rates_of (d : Gateway.exchange_data) : option (gmap string Q) :=
  match d with
  | Gateway.ExchangeObject (Some rates) => Some rates
  | Gateway.ExchangeOtherRates own => Some own
  | _ => None
  end.

(** [countryRes.data && Array.isArray(countryRes.data)] *)
Definition country_array_of (d : Gateway.country_data) : option (list Gateway.country) :=
  match d with
  | Gateway.CountryArray l => Some l
  | _ => None
  end.

(** [ISO_NOW.slice(0, 19).replace('T', ' ')] *)
Definition dbTimestamp_of (iso_now : string) : string :=
  JS.replace_first "T"%char " "%char (JS.slice0 19 iso_now).

(** The body of the loop of [refreshCountries] up to the [values] array:
    the join of one descriptor with the rate mapping. *)
Definition upsert_values (exchangeRates : gmap string Q) (dbTimestamp : string)
    (country : Gateway.country) (g : rand) : Store.country_row * rand :=
  let countryName := Gateway.name country in
  let currency_code :=
    match Gateway.currencies country with
    | Some (c0 :: _) => Some (JS.toUpperCase (JS.or_empty (Gateway.code c0)))
    | _ => None
    end in
  let exchange_rate :=
    if JS.truthy currency_code then
      match currency_code with
      | Some c => exchangeRates !! c
      | None => None
      end
    else None in
  let population :=
    match Gateway.population country with
    | Some n => Z.of_N n
    | None => 0%Z
    end in
  let (estimated_gdp, g') := computeEstimatedGdp population exchange_rate g in
  let estimated_gdp :=
    match currency_code with
    | None => Some 0
    | Some _ => estimated_gdp
    end in
  (Store.mkRow countryName
     (JS.or_null (Gateway.capital country))
     (JS.or_null (Gateway.region country))
     population currency_code exchange_rate estimated_gdp
     (JS.or_null (Gateway.flag country))
     (Some dbTimestamp),
   g').

(** The three statements [refreshCountries] sends on its connection. *)
Definition sql_upsert (values : Store.country_row) (d : Store.database)
    : unit * Store.database :=
  (tt, Store.mkDb (Store.upsert values (Store.countries d)) (Store.status d)).

Definition sql_update_status (totalCountries : Z) (dbTimestamp : string)
    (d : Store.database) : unit * Store.database :=
  (tt, Store.mkDb (Store.countries d)
         (Store.update_status totalCountries dbTimestamp (Store.status d))).

Definition sql_select_top5 (d : Store.database)
    : list (string * option Q) * Store.database :=
  (Store.select_top5 (Store.countries d), d).

(** [generateSummaryImage(totalCountries, topCountries, lastRefreshedAt)] *)
Definition generateSummaryImage (rt : runtime) (totalCountries : Z)
    (topCountries : list (string * option Q)) (lastRefreshedAt : string) : M unit :=
  fun w =>
    if render_fault rt then (Thrown RenderError, w)
    else (Returned tt,
          set_image (Some (mkImage totalCountries topCountries lastRefreshedAt)) w).

Definition is_API_FAILURE (e : exn) : bool :=
  match e with API_FAILURE => true | _ => false end.

(** [refreshCountries(req, res)] *)
Definition refreshCountries (rt : runtime) : M unit :=
  let ISO_NOW := now_iso rt in
  try_catch
    (fetched <- try_catch (Promise_all rt)
       (fun error =>
          let apiName :=
            match error with
            | AxiosError (Some url) =>
                if JS.includes "restcountries" url
                then "Rest Countries API" else "Exchange Rate API"
            | _ => "Exchange Rate API"
            end in
          sendError 503 "External data source unavailable"
            (Some ("Could not fetch data from " ++ apiName)) ;;
          throw API_FAILURE) ;;
     match exchange_rates_of (fst fetched), country_array_of (snd fetched) with
     | Some exchangeRates, Some countryData =>
         let dbTimestamp := dbTimestamp_of ISO_NOW in
         pool_getConnection rt ;;
         beginTransaction rt ;;
         totalCountries <-
           for_of countryData
             (fun country totalCountries =>
                values <- with_rng (upsert_values exchangeRates dbTimestamp country) ;;
                connection_query rt (sql_upsert values) ;;
                ret (totalCountries + 1)%Z)
             0%Z ;;
         connection_query rt (sql_update_status totalCountries dbTimestamp) ;;
         topCountries <- connection_query rt sql_select_top5 ;;
         generateSummaryImage rt totalCountries topCountries ISO_NOW ;;
         commit rt ;;
         release ;;
         res_json (Http.RefreshBody
                     "Country data and exchange rates refreshed successfully."
                     totalCountries ISO_NOW)
     | _, _ =>
         sendError 503 "External data source unavailable"
           (Some "External API returned invalid or unexpected data structure.") ;;
         throw API_FAILURE
     end)
    (fun error =>
       (fun w =>
          match connection w with
          | Some _ => (rollback ;; release) w
          | None => ret tt w
          end) ;;
       if is_API_FAILURE error then ret tt
       else sendError 500 "Internal server error"
              (Some "A database or processing error occurred during refresh.")).

(** The ORDER BY clause [getCountries] builds from [req.query.sort]. *)
Definition orderBy (sort : option string) : Store.ordering :=
  match sort with
  | Some s =>
      if JS.truthy_string s then
        let parts := JS.split "_"%char s in
        let field := nth_error parts 0 in
        let direction := nth_error parts 1 in
        let validDirections := ["desc"; "asc"] in
        match field, direction with
        | Some f, Some d =>
            if String.eqb f "gdp" && existsb (String.eqb d) validDirections then
              match Store.direction_of_keyword (JS.toUpperCase d) with
              | Some dir => Store.ByGdp dir
              | None => Store.ByName
              end
            else Store.ByName
        | _, _ => Store.ByName
        end
      else Store.ByName
  | None => Store.ByName
  end.

(** The WHERE clause [getCountries] builds from [req.query]. *)
Definition conditions (region currency : option string) : list Store.condition :=
  (match region with
   | Some r => if JS.truthy_string r then [Store.RegionIs r] else []
   | None => []
   end) ++
  (match currency with
   | Some c => if JS.truthy_string c then [Store.CurrencyIs c] else []
   | None => []
   end).

(** [getCountries(req, res)] with [req.query = {region, currency, sort}] *)
Definition getCountries (rt : runtime) (region currency sort : option string) : M unit :=
  try_catch
    (rows <- pool_query rt (fun d =>
       (Store.select_where (conditions region currency) (orderBy sort)
          (Store.countries d), d)) ;;
     res_json (Http.RowsBody rows))
    (fun _ => sendError 500 "Internal server error" None).

(** [getCountryByName(req, res)] with [req.params = {name}] *)
Definition getCountryByName (rt : runtime) (name : string) : M unit :=
  try_catch
    (rows <- pool_query rt (fun d =>
       (Store.select_by_name name (Store.countries d), d)) ;;
     match rows with
     | [] => sendError 404 "Country not found" None
     | row0 :: _ => res_json (Http.RowBody row0)
     end)
    (fun _ => sendError 500 "Internal server error" None).

(** [deleteCountry(req, res)] with [req.params = {name}] *)
Definition deleteCountry (rt : runtime) (name : string) : M unit :=
  try_catch
    (affectedRows <- pool_query rt (fun d =>
       let (rest, n) := Store.delete_by_name name (Store.countries d) in
       (n, Store.mkDb rest (Store.status d))) ;;
     match affectedRows with
     | O => sendError 404 "Country not found" None
     | _ => res_json (Http.MessageBody "Country deleted successfully.")
     end)
    (fun _ => sendError 500 "Internal server error" None).

(** A request arrives with no connection held and nothing written yet. *)
Definition request_start (d : Store.database) (g : rand)
    (img : option summary_image) : world :=
  mkWorld d None 0 g img None.

(* ===================================================================== *)
(** * Vocabulary of the statements and sample data *)
(* ===================================================================== *)

(** The claim C2 read literally: absent rate gives [null]; a positive rate
    with population 0 gives 0; every other input gives
    [population * m / rate] for a multiplier in range, inside the interval
    spanned by the two extreme multipliers. *)
Definition estimate_as_specified (population : Z) (exchangeRate : option Q)
    (result : option Q) : Prop :=
  match exchangeRate with
  | None => result = None
  | Some rate =>
      (0 < rate /\ population = 0%Z -> result = Some 0) /\
      (~ (0 < rate /\ population = 0%Z) ->
       exists m : Z, (1000 <= m <= 2000)%Z /\
         result = Some (inject_Z (population * m) / rate) /\
         inject_Z (population * 1000) / rate <= inject_Z (population * m) / rate /\
         inject_Z (population * m) / rate <= inject_Z (population * 2000) / rate)
  end.

(** A supply whose every draw is one half. *)
Definition half_draws : rand := mkRand (fun _ => 1 # 2) 0.

(** The currency code the join step derives from a descriptor. *)
Definition joined_code (country : Gateway.country) : option string :=
  match Gateway.currencies country with
  | Some (c0 :: _) => Some (JS.toUpperCase (JS.or_empty (Gateway.code c0)))
  | _ => None
  end.

(** The rate the join step looks up for a derived code. *)
Definition joined_rate (exchangeRates : gmap string Q) (code : option string) : option Q :=
  if JS.truthy code then
    match code with
    | Some c => exchangeRates !! c
    | None => None
    end
  else None.

Definition joined_population (country : Gateway.country) : Z :=
  match Gateway.population country with
  | Some n => Z.of_N n
  | None => 0%Z
  end.

(** A number that is present and not negative. *)
Definition nonneg_number (v : option Q) : Prop :=
  exists x, v = Some x /\ 0 <= x.

(** The invariant of the data model, clause by clause, as C3 states it. *)
Definition gdp_invariant (r : Store.country_row) : Prop :=
  (Store.currency_code r = None -> Store.estimated_gdp r = Some 0) /\
  (Store.currency_code r <> None -> Store.exchange_rate r = None ->
   Store.estimated_gdp r = None) /\
  (Store.currency_code r <> None -> Store.exchange_rate r <> None ->
   nonneg_number (Store.estimated_gdp r)).

(** A rate table listing one currency at rate 0 and one at rate 2. *)
Definition sample_rates : gmap string Q :=
  <["ABC" := 2]> (<["ZER" := 0]> ∅).

Definition zeroland : Gateway.country :=
  Gateway.mkCountry "Zeroland" None None (Some 7%N) None
    (Some [Gateway.mkCurrency (Some "zer")]).

Definition testland : Gateway.country :=
  Gateway.mkCountry "Testland" None None (Some 1000000%N) None
    (Some [Gateway.mkCurrency (Some "abc")]).

(** A rate table with a negative entry, and a country using it. *)
Definition negative_rates : gmap string Q := <["NEG" := -1]> ∅.

Definition negland : Gateway.country :=
  Gateway.mkCountry "Negland" None None (Some 1%N) None
    (Some [Gateway.mkCurrency (Some "neg")]).

Definition codeless : Gateway.country :=
  Gateway.mkCountry "Codeless" None None (Some 42%N) None
    (Some [Gateway.mkCurrency None]).

(** All the columns an upsert overwrites. *)
Definition same_columns (r v : Store.country_row) : Prop :=
  Store.capital r = Store.capital v /\
  Store.region r = Store.region v /\
  Store.population r = Store.population v /\
  Store.currency_code r = Store.currency_code v /\
  Store.exchange_rate r = Store.exchange_rate v /\
  Store.estimated_gdp r = Store.estimated_gdp v /\
  Store.flag_url r = Store.flag_url v /\
  Store.last_refreshed_at r = Store.last_refreshed_at v.

(** The relation a boolean ordering decides. *)
Definition ordered_by {A : Type} (le : A -> A -> bool) (a b : A) : Prop :=
  le a b = true.

(** Descending order with nulls last, as the specification words it:
    [a] may stand before [b] when both are numbers and [a] is not smaller,
    or when [b] is null. *)
Definition may_precede_desc (a b : option Q) : Prop :=
  match a, b with
  | Some x, Some y => y <= x
  | _, None => True
  | None, Some _ => False
  end.

(** The rows of a result set are in nulls-last descending GDP order. *)
Definition gdp_descending (rows : list Store.country_row) : Prop :=
  StronglySorted
    (fun r1 r2 => may_precede_desc (Store.estimated_gdp r1) (Store.estimated_gdp r2))
    rows.

(** A request during which no round trip to the store fails (the read
    handlers never consult the gateways). *)
Definition quiet : runtime :=
  mkRuntime (Gateway.Rejected None) (Gateway.Rejected None) false
            "2026-01-01T00:00:00.000Z" (fun _ => false) false.

Definition row_of (name : string) (gdp : option Q) : Store.country_row :=
  Store.mkRow name None None 0 None None gdp None None.

Definition sample_db : Store.database :=
  Store.mkDb [row_of "Alpha" (Some 1); row_of "Beta" None; row_of "France" (Some 2)]
             (Some (Store.mkStatus 3 None)).


Definition two_rows : Store.database :=
  Store.mkDb [row_of "Alpha" (Some 1); row_of "Beta" (Some 2)]
             (Some (Store.mkStatus 2 None)).

(** The rows the join step builds for a list of descriptors, in order,
    and the random supply left afterwards. *)
Fixpoint join_all (exchangeRates : gmap string Q) (ts : string)
    (l : list Gateway.country) (g : rand) : list Store.country_row * rand :=
  match l with
  | [] => ([], g)
  | country :: l' =>
      let (v, g1) := upsert_values exchangeRates ts country g in
      let (vs, g2) := join_all exchangeRates ts l' g1 in
      (v :: vs, g2)
  end.

(** The rows upserted one after the other. *)
Definition upsert_all (vs : list Store.country_row) (t : list Store.country_row)
    : list Store.country_row :=
  fold_left (fun t v => Store.upsert v t) vs t.

(** The store a complete refresh leaves: every upsert and the status
    write applied to the initial contents. *)
Definition refreshed (exchangeRates : gmap string Q) (ts : string)
    (l : list Gateway.country) (g : rand) (d : Store.database) : Store.database :=
  Store.mkDb
    (upsert_all (fst (join_all exchangeRates ts l g)) (Store.countries d))
    (Store.update_status (Z.of_nat (List.length l)) ts (Store.status d)).

(** The answer of [refreshCountries] to any error but a gateway failure. *)
Definition internal_error : Http.response :=
  Http.mkResponse 500
    (Http.ErrorBody "Internal server error"
       (Some "A database or processing error occurred during refresh.")).

(** The answer of [refreshCountries] after the commit. *)
Definition refresh_done (n : nat) (iso_now : string) : Http.response :=
  Http.mkResponse 200
    (Http.RefreshBody "Country data and exchange rates refreshed successfully."
       (Z.of_nat n) iso_now).

Definition two_countries : list Gateway.country := [testland; zeroland].

(** Both gateways answer; the second upsert fails. *)
Definition second_upsert_fails : runtime :=
  mkRuntime (Gateway.Resolved (Gateway.ExchangeObject (Some sample_rates)))
            (Gateway.Resolved (Gateway.CountryArray two_countries))
            false "2026-01-01T00:00:00.000Z" (fun k => Nat.eqb k 3) false.

(** Both gateways answer and nothing fails. *)
Definition all_well : runtime :=
  mkRuntime (Gateway.Resolved (Gateway.ExchangeObject (Some sample_rates)))
            (Gateway.Resolved (Gateway.CountryArray two_countries))
            false "2026-01-01T00:00:00.000Z" (fun _ => false) false.

(** One of the two fetches was rejected, or a body lacks the expected
    shape: no rate mapping, or a country payload that is not an array. *)
Inductive external_unavailable (rt : runtime) : Prop :=
| exchange_rejected (u : option string) :
    exchange_get rt = Gateway.Rejected u -> external_unavailable rt
| country_rejected (u : option string) :
    country_get rt = Gateway.Rejected u -> external_unavailable rt
| exchange_without_body :
    exchange_get rt = Gateway.Resolved Gateway.ExchangeEmpty ->
    external_unavailable rt
| exchange_without_rates :
    exchange_get rt = Gateway.Resolved (Gateway.ExchangeObject None) ->
    external_unavailable rt
| country_without_body :
    country_get rt = Gateway.Resolved Gateway.CountryEmpty ->
    external_unavailable rt
| country_not_an_array :
    country_get rt = Gateway.Resolved Gateway.CountryNotArray ->
    external_unavailable rt.

(** The rate fetch is rejected with an HTTP error. *)
Definition rates_down : runtime :=
  mkRuntime (Gateway.Rejected (Some "https://open.er-api.com/v6/latest/USD"))
            (Gateway.Resolved (Gateway.CountryArray two_countries))
            false "2026-01-01T00:00:00.000Z" (fun _ => false) false.

Definition plain_country (name : string) : Gateway.country :=
  Gateway.mkCountry name None None None None None.

(** Two descriptors whose names differ by case only. *)
Definition colliding : runtime :=
  mkRuntime (Gateway.Resolved (Gateway.ExchangeObject (Some sample_rates)))
            (Gateway.Resolved
               (Gateway.CountryArray [plain_country "France"; plain_country "FRANCE"]))
            false "2026-01-01T00:00:00.000Z" (fun _ => false) false.

Definition empty_db : Store.database :=
  Store.mkDb [] (Some (Store.mkStatus 0 None)).

(* ===================================================================== *)
(** * The remaining handlers and the startup *)
(* ===================================================================== *)

(** What a handler sends when it is not one of the bodies of [Http.body]:
    the status object, or the image file.  The handlers below return what
    they send. *)
Inductive sent :=
| SentJson (r : Http.response)
| SentStatus (total_countries : Z) (last_refreshed_at : option string)
| SentFile (content_type : string) (file : summary_image).

(** [SELECT total_countries, last_refreshed_at FROM status WHERE id = 1]:
    no row or one row. *)
Definition sql_select_status (d : Store.database)
    : option Store.status_row * Store.database :=
  (Store.status d, d).

(** [getStatus(req, res)].  [toISOString] stands for
    [new Date(x).toISOString()] on the value the driver returns for a
    DATETIME, which depends on the time zone of the server. *)
Definition getStatus (rt : runtime) (toISOString : string -> string) : M sent :=
  try_catch
    (rows <- pool_query rt sql_select_status ;;
     match rows with
     | None =>
         ret (SentJson
                (Http.mkResponse 500
                   (Http.ErrorBody "Internal server error"
                      (JS.or_null (Some "Status record missing from database.")))))
     | Some statusRow =>
         ret (SentStatus
                (if (Store.total_countries statusRow =? 0)%Z then 0%Z
                 else Store.total_countries statusRow)
                (match Store.status_last_refreshed_at statusRow with
                 | Some t => Some (toISOString t)
                 | None => None
                 end))
     end)
    (fun _ =>
       ret (SentJson (Http.mkResponse 500
                        (Http.ErrorBody "Internal server error" None)))).

(** Outcome of [fs.access(CACHE_IMAGE_PATH)]. *)
Inductive access :=
| Accessible (file : summary_image)
| AccessError (code : string).

(** A missing file is [ENOENT]; a file that is there may still be
    refused with the code the environment gives. *)
Definition fs_access (fs_fault : option string) (w : world) : access :=
  match image w, fs_fault with
  | None, _ => AccessError "ENOENT"
  | Some file, None => Accessible file
  | Some _, Some code => AccessError code
  end.

(** [getCountryImage(req, res)] *)
Definition getCountryImage (fs_fault : option string) : M sent :=
  fun w =>
    match fs_access fs_fault w with
    | Accessible file => (Returned (SentFile "image/png" file), w)
    | AccessError code =>
        if String.eqb code "ENOENT" then
          (Returned (SentJson
                       (Http.mkResponse 404
                          (Http.ErrorBody "Summary image not found" None))), w)
        else
          (Returned (SentJson
                       (Http.mkResponse 500
                          (Http.ErrorBody "Internal server error" None))), w)
    end.

(** ** db.js *)

(** [CREATE TABLE IF NOT EXISTS ...]: the rows of an existing table stay;
    a table that did not exist is an empty one. *)
Definition sql_create_table (d : Store.database) : unit * Store.database :=
  (tt, d).

(** [INSERT IGNORE INTO status (id, total_countries) VALUES (1, 0)] *)
Definition sql_insert_ignore_status (d : Store.database) : unit * Store.database :=
  (tt, Store.mkDb (Store.countries d)
         (match Store.status d with
          | Some s => Some s
          | None => Some (Store.mkStatus 0 None)
          end)).

(** How the startup ends: the server goes on, or [process.exit(code)]. *)
Inductive startup :=
| Ready (w : world)
| ProcessExit (code : Z) (w : world).

(** [initializeDatabase()] *)
Definition initializeDatabase (rt : runtime) (w : world) : startup :=
  match (pool_query rt sql_create_table ;;
         pool_query rt sql_create_table ;;
         pool_query rt sql_insert_ignore_status) w with
  | (Returned _, w') => Ready w'
  | (Thrown _, w') => ProcessExit 1 w'
  end.

(** ** More vocabulary *)

(** No two names of the list agree up to case. *)
Fixpoint distinct_names (ns : list string) : Prop :=
  match ns with
  | [] => True
  | n :: ns' =>
      (forall n', In n' ns' -> Store.same_name n n' = false) /\ distinct_names ns'
  end.

(** The rejection [Promise.all] reports, if any. *)
Definition first_rejection (rt : runtime) : option (option string) :=
  match exchange_get rt, country_get rt with
  | Gateway.Resolved _, Gateway.Resolved _ => None
  | Gateway.Rejected u, Gateway.Resolved _ => Some u
  | Gateway.Resolved _, Gateway.Rejected u => Some u
  | Gateway.Rejected ue, Gateway.Rejected uc =>
      Some (if country_settles_first rt then uc else ue)
  end.

(** Ascending order with nulls first. *)
Definition may_precede_asc (a b : option Q) : Prop :=
  match a, b with
  | Some x, Some y => x <= y
  | None, _ => True
  | Some _, None => False
  end.

(** A row passes the filters of the query string. *)
Definition passes (region currency : option string) (r : Store.country_row) : Prop :=
  (forall p, region = Some p -> p <> "" ->
     exists v, Store.region r = Some v /\ JS.toLowerCase v = JS.toLowerCase p) /\
  (forall p, currency = Some p -> p <> "" ->
     exists v, Store.currency_code r = Some v /\
               JS.toLowerCase v = JS.toLowerCase p).

(** The image a complete refresh renders. *)
Definition rendered (exchangeRates : gmap string Q) (iso_now : string)
    (l : list Gateway.country) (g : rand) (d : Store.database) : summary_image :=
  mkImage (Z.of_nat (List.length l))
    (Store.select_top5
       (Store.countries (refreshed exchangeRates (dbTimestamp_of iso_now) l g d)))
    iso_now.

Definition status_missing : Http.response :=
  Http.mkResponse 500
    (Http.ErrorBody "Internal server error"
       (Some "Status record missing from database.")).

(** The status object for a stored row. *)
Definition status_object (toISOString : string -> string) (s : Store.status_row) : sent :=
  SentStatus (Store.total_countries s)
    (match Store.status_last_refreshed_at s with
     | Some t => Some (toISOString t)
     | None => None
     end).

Definition no_status_db : Store.database := Store.mkDb [] None.

(** Every round trip to the store fails. *)
Definition store_down : runtime :=
  mkRuntime (Gateway.Rejected None) (Gateway.Rejected None) false
            "2026-01-01T00:00:00.000Z" (fun _ => true) false.

(** What the startup leaves in the store when nothing fails. *)
Definition initialized (d : Store.database) : Store.database :=
  Store.mkDb (Store.countries d)
    (match Store.status d with
     | Some s => Some s
     | None => Some (Store.mkStatus 0 None)
     end).

Definition image_not_found : Http.response :=
  Http.mkResponse 404 (Http.ErrorBody "Summary image not found" None).

(** Both gateways answer; only the commit fails. *)
Definition commit_fails : runtime :=
  mkRuntime (Gateway.Resolved (Gateway.ExchangeObject (Some sample_rates)))
            (Gateway.Resolved (Gateway.CountryArray two_countries))
            false "2026-01-01T00:00:00.000Z" (fun k => Nat.eqb k 6) false.

Definition region_row (name : string) (region : option string) : Store.country_row :=
  Store.mkRow name None region 0 None None None None None.

Definition regions_db : Store.database :=
  Store.mkDb [region_row "Belgium" (Some "europe"); region_row "Chad" (Some "Africa");
              region_row "Austria" (Some "Europe"); region_row "Nowhere" None]
             (Some (Store.mkStatus 4 None)).


Definition plain_500 : Http.response :=
  Http.mkResponse 500 (Http.ErrorBody "Internal server error" None).

Definition country_not_found : Http.response :=
  Http.mkResponse 404 (Http.ErrorBody "Country not found" None).

(** The country fetch is rejected by an error without request
    configuration. *)
Definition countries_down_no_config : runtime :=
  mkRuntime (Gateway.Resolved (Gateway.ExchangeObject (Some sample_rates)))
            (Gateway.Rejected None)
            false "2026-01-01T00:00:00.000Z" (fun _ => false) false.

(** The projection the top-5 read-back selects. *)
Definition name_and_gdp (r : Store.country_row) : string * option Q :=
  (Store.name r, Store.estimated_gdp r).

(** The rate gateway answers [{"rates": 5}]: a member that is there but
    is no mapping; the country gateway answers two descriptors. *)
Definition rates_is_a_number : runtime :=
  mkRuntime (Gateway.Resolved (Gateway.ExchangeOtherRates ∅))
            (Gateway.Resolved (Gateway.CountryArray two_countries))
            false "2026-01-01T00:00:00.000Z" (fun _ => false) false.



(* ===================================================================== *)
(** * Properties of the estimator *)
(* ===================================================================== *)

Section Estimator.

Variable g : rand.
Hypothesis draws_ok : unit_draws g.

(** The multiplier drawn with the default bounds lies in [[1000, 2000]]. *)
Lemma getRandomMultiplier_bounds :
  (1000 <= fst (getRandomMultiplier g) <= 2000)%Z.
Proof using draws_ok.
  unfold getRandomMultiplier, getRandomMultiplier_range, Math_random.
  cbn [fst]. change (2000 - 1000 + 1)%Z with 1001%Z.
  destruct (draws_ok (used g)) as [Hlo Hhi].
  set (u := draws g (used g)) in *.
  assert (H0 : (0 <= Qfloor (u * inject_Z 1001))%Z).
  { rewrite <- (Qfloor_Z 0). apply Qfloor_resp_le.
    apply Qmult_le_0_compat; [exact Hlo | discriminate]. }
  assert (H1 : (Qfloor (u * inject_Z 1001) < 1001)%Z).
  { assert (Hlt : u * inject_Z 1001 < inject_Z 1001).
    { pose proof (Qmult_lt_compat_r u 1 (inject_Z 1001) eq_refl Hhi) as Hm.
      rewrite Qmult_1_l in Hm. exact Hm. }
    pose proof (Qfloor_le (u * inject_Z 1001)) as Hfl.
    pose proof (Qle_lt_trans _ _ _ Hfl Hlt) as Hz.
    rewrite <- Zlt_Qlt in Hz. exact Hz. }
  lia.
Qed.

(** Drawing a multiplier consumes one draw and nothing else. *)
Lemma getRandomMultiplier_supply :
  snd (getRandomMultiplier g) = mkRand (draws g) (S (used g)).
Proof using Type. reflexivity. Qed.

End Estimator.

(** Scaling an integer product by a positive rate keeps the order. *)
Lemma scaled_le (p a b : Z) (rate : Q) :
  (0 <= p)%Z -> (a <= b)%Z -> 0 < rate ->
  inject_Z (p * a) / rate <= inject_Z (p * b) / rate.
Proof.
  intros Hp Hab Hr. unfold Qdiv.
  apply Qmult_le_compat_r.
  - rewrite <- Zle_Qle. apply Z.mul_le_mono_nonneg_l; assumption.
  - apply Qlt_le_weak, Qinv_lt_0_compat, Hr.
Qed.

Lemma scaled_nonneg (p m : Z) (rate : Q) :
  (0 <= p)%Z -> (0 <= m)%Z -> 0 < rate -> 0 <= inject_Z (p * m) / rate.
Proof.
  intros Hp Hm Hr. unfold Qdiv.
  apply Qmult_le_0_compat.
  - change 0 with (inject_Z 0). rewrite <- Zle_Qle. lia.
  - apply Qlt_le_weak, Qinv_lt_0_compat, Hr.
Qed.

Lemma is_zero_true (x : Q) : JS.is_zero x = true <-> x == 0.
Proof. unfold JS.is_zero. apply Qeq_bool_iff. Qed.

Lemma is_zero_false (x : Q) : JS.is_zero x = false <-> ~ x == 0.
Proof.
  unfold JS.is_zero. split.
  - apply Qeq_bool_neq.
  - intros H. destruct (Qeq_bool x 0) eqn:E; [| reflexivity].
    apply Qeq_bool_iff in E. contradiction.
Qed.

(** The estimator answers [null] exactly when the rate is absent or zero. *)
Lemma computeEstimatedGdp_null (population : Z) (exchangeRate : option Q) (g : rand) :
  fst (computeEstimatedGdp population exchangeRate g) = None <->
  (exchangeRate = None \/ exists rate, exchangeRate = Some rate /\ rate == 0).
Proof.
  unfold computeEstimatedGdp. destruct exchangeRate as [rate|]; simpl.
  - destruct (JS.is_zero rate) eqn:E.
    + split; [| reflexivity]. intros _. right. exists rate.
      split; [reflexivity | apply is_zero_true, E].
    + apply is_zero_false in E.
      split.
      * destruct (population =? 0)%Z; simpl; discriminate.
      * intros [H | (r & Hr & Hz)]; [discriminate |].
        injection Hr as <-. contradiction.
  - split; auto.
Qed.

(** With a usable rate, nobody to count gives exactly 0 and consumes no
    draw. *)
Lemma computeEstimatedGdp_no_people (rate : Q) (g : rand) :
  ~ rate == 0 -> computeEstimatedGdp 0 (Some rate) g = (Some 0, g).
Proof.
  intros Hnz. unfold computeEstimatedGdp.
  apply is_zero_false in Hnz. rewrite Hnz. reflexivity.
Qed.

(** With a usable rate and somebody to count, the result is the scaled
    population for one multiplier in range. *)
Lemma computeEstimatedGdp_drawn (population : Z) (rate : Q) (g : rand) :
  unit_draws g -> ~ rate == 0 -> population <> 0%Z ->
  exists m : Z, (1000 <= m <= 2000)%Z /\
    fst (computeEstimatedGdp population (Some rate) g)
    = Some (inject_Z (population * m) / rate).
Proof.
  intros Hdraws Hnz Hp. unfold computeEstimatedGdp.
  apply is_zero_false in Hnz. rewrite Hnz.
  apply Z.eqb_neq in Hp. rewrite Hp.
  pose proof (getRandomMultiplier_bounds g Hdraws) as Hm.
  destruct (getRandomMultiplier g) as [m g'] eqn:E. simpl in Hm |- *.
  exists m. split; [exact Hm | reflexivity].
Qed.

Lemma half_draws_ok : unit_draws half_draws.
Proof. intros n. split; [unfold Qle | unfold Qlt]; simpl; lia. Defined.

(** C2, counterexample: with population 5 and rate 0 the estimator answers
    [null], not a number of the form 5 * m / 0. *)
Lemma C2_fails_at_zero_rate :
  ~ estimate_as_specified 5 (Some 0)
      (fst (computeEstimatedGdp 5 (Some 0) half_draws)).
Proof.
  unfold estimate_as_specified. intros [_ H].
  destruct H as (m & _ & Hres & _).
  - intros [Hpos _]. discriminate Hpos.
  - simpl in Hres. discriminate Hres.
Qed.

(** C2, amended: for a non-negative population the estimator returns
    [null] when the rate is absent or equal to 0; exactly 0 when the rate
    is present, not 0, and the population is 0; otherwise
    [population * m / rate] for an integer [m] in [[1000, 2000]], and when
    the rate is positive this value lies between [population * 1000 / rate]
    and [population * 2000 / rate]. *)
Theorem computeEstimatedGdp_cases (population : Z) (exchangeRate : option Q) (g : rand) :
  (0 <= population)%Z -> unit_draws g ->
  let result := fst (computeEstimatedGdp population exchangeRate g) in
  (exchangeRate = None -> result = None) /\
  (forall rate, exchangeRate = Some rate -> rate == 0 -> result = None) /\
  (forall rate, exchangeRate = Some rate -> ~ rate == 0 -> population = 0%Z ->
     result = Some 0) /\
  (forall rate, exchangeRate = Some rate -> ~ rate == 0 -> population <> 0%Z ->
     exists m : Z, (1000 <= m <= 2000)%Z /\
       result = Some (inject_Z (population * m) / rate) /\
       (0 < rate ->
        inject_Z (population * 1000) / rate <= inject_Z (population * m) / rate /\
        inject_Z (population * m) / rate <= inject_Z (population * 2000) / rate)).
Proof.
  intros Hpop Hdraws result. subst result. repeat split.
  - intros ->. reflexivity.
  - intros rate -> Hz. apply computeEstimatedGdp_null. right. eauto.
  - intros rate -> Hnz ->. rewrite computeEstimatedGdp_no_people by exact Hnz.
    reflexivity.
  - intros rate -> Hnz Hp.
    destruct (computeEstimatedGdp_drawn population rate g Hdraws Hnz Hp)
      as (m & Hm & Hres).
    exists m. split; [exact Hm |]. split; [exact Hres |].
    intros Hr. split; apply scaled_le; (lia || assumption).
Qed.

(** The end-to-end figure of the specification: one million inhabitants at
    rate 2 give a value between 500000000 and 1000000000. *)
Lemma computeEstimatedGdp_cases_witness :
  exists m : Z, (1000 <= m <= 2000)%Z /\
    fst (computeEstimatedGdp 1000000 (Some 2) half_draws)
      = Some (inject_Z (1000000 * m) / 2) /\
    (0 < 2 ->
     inject_Z (1000000 * 1000) / 2 <= inject_Z (1000000 * m) / 2 /\
     inject_Z (1000000 * m) / 2 <= inject_Z (1000000 * 2000) / 2).
Proof.
  destruct (computeEstimatedGdp_cases 1000000 (Some 2) half_draws) as (_ & _ & _ & H).
  - lia.
  - exact half_draws_ok.
  - apply (H 2); [reflexivity | discriminate | lia].
Defined.

(* ===================================================================== *)
(** * Properties of the store *)
(* ===================================================================== *)

Lemma same_name_iff (a b : string) :
  Store.same_name a b = true <-> JS.toLowerCase a = JS.toLowerCase b.
Proof. unfold Store.same_name. apply String.eqb_eq. Qed.

Lemma same_name_refl (a : string) : Store.same_name a a = true.
Proof. apply same_name_iff. reflexivity. Qed.

Lemma same_name_sym (a b : string) : Store.same_name a b = Store.same_name b a.
Proof. unfold Store.same_name. apply String.eqb_sym. Qed.

Lemma same_name_trans (a b c : string) :
  Store.same_name a b = true -> Store.same_name b c = true ->
  Store.same_name a c = true.
Proof. rewrite !same_name_iff. congruence. Qed.

(** Two names that match a third one either both do or both do not. *)
Lemma same_name_false_l (a b c : string) :
  Store.same_name a b = false -> Store.same_name b c = true ->
  Store.same_name a c = false.
Proof.
  intros Hab Hbc. destruct (Store.same_name a c) eqn:E; [| reflexivity].
  rewrite same_name_sym in Hbc.
  rewrite (same_name_trans a c b E Hbc) in Hab. discriminate.
Qed.

Lemma same_columns_refl (v : Store.country_row) : same_columns v v.
Proof. repeat split. Qed.

(** After an upsert the table holds a row under the given name (up to
    case) with the given values in every other column. *)
Lemma upsert_stored (v : Store.country_row) (t : list Store.country_row) :
  exists r, In r (Store.upsert v t) /\
            Store.same_name (Store.name r) (Store.name v) = true /\
            same_columns r v.
Proof.
  induction t as [| a t IH]; simpl.
  - exists v. split; [left; reflexivity |].
    split; [apply same_name_refl | apply same_columns_refl].
  - destruct (Store.same_name (Store.name a) (Store.name v)) eqn:E.
    + exists (Store.overwrite a v). split; [left; reflexivity |].
      split; [exact E | repeat split].
    + destruct IH as (r & Hin & Hn & Hc).
      exists r. split; [right; exact Hin | split; assumption].
Qed.

(** An upsert never removes a row and adds at most one. *)
Lemma upsert_length (v : Store.country_row) (t : list Store.country_row) :
  List.length (Store.upsert v t) =
  if existsb (fun r => Store.same_name (Store.name r) (Store.name v)) t
  then List.length t else S (List.length t).
Proof.
  induction t as [| a t IH]; simpl; [reflexivity |].
  destruct (Store.same_name (Store.name a) (Store.name v)); simpl; [reflexivity |].
  rewrite IH. destruct (existsb _ t); reflexivity.
Qed.

(** The names of the table after an upsert: the old ones, and the new
    one when no old one matched. *)
Lemma upsert_names (v : Store.country_row) (t : list Store.country_row) (r : Store.country_row) :
  In r (Store.upsert v t) ->
  (exists r0, In r0 t /\ Store.name r = Store.name r0) \/
  (r = v /\ forall r0, In r0 t ->
              Store.same_name (Store.name r0) (Store.name v) = false).
Proof.
  induction t as [| a t IH]; simpl.
  - intros [<- | []]. right. split; [reflexivity | intros r0 []].
  - destruct (Store.same_name (Store.name a) (Store.name v)) eqn:E; simpl.
    + intros [<- | Hin].
      * left. exists a. split; [left; reflexivity | reflexivity].
      * left. exists r. split; [right; exact Hin | reflexivity].
    + intros [<- | Hin].
      * left. exists a. split; [left; reflexivity | reflexivity].
      * destruct (IH Hin) as [(r0 & H0 & Hn) | (-> & Hall)].
        -- left. exists r0. split; [right; exact H0 | exact Hn].
        -- right. split; [reflexivity |].
           intros r0 [<- | H0]; [exact E | apply Hall, H0].
Qed.

(** The unique key survives an upsert. *)
Lemma upsert_unique (v : Store.country_row) (t : list Store.country_row) :
  Store.unique_names t -> Store.unique_names (Store.upsert v t).
Proof.
  induction t as [| a t IH]; simpl.
  - intros _. split; [intros r' [] | exact I].
  - intros [Ha Ht].
    destruct (Store.same_name (Store.name a) (Store.name v)) eqn:E; simpl.
    + split; [exact Ha | exact Ht].
    + split; [| apply IH, Ht].
      intros r' Hin. destruct (upsert_names v t r' Hin) as [(r0 & H0 & Hn) | (-> & _)].
      * rewrite Hn. apply Ha, H0.
      * exact E.
Qed.

(** The unique key survives a delete. *)
Lemma delete_unique (n : string) (t : list Store.country_row) :
  Store.unique_names t -> Store.unique_names (fst (Store.delete_by_name n t)).
Proof.
  unfold Store.delete_by_name; simpl.
  induction t as [| a t IH]; simpl; [auto |].
  intros [Ha Ht].
  destruct (Store.same_name (Store.name a) n); simpl; [apply IH, Ht |].
  split; [| apply IH, Ht].
  intros r' Hin. apply List.filter_In in Hin. apply Ha, Hin.
Qed.

(** Under the unique key, the rows matching a stored row's name up to
    case are that row alone, and deleting them removes it in place. *)
Lemma match_is_unique (n : string) (t : list Store.country_row) (r : Store.country_row) :
  Store.unique_names t -> In r t -> Store.same_name (Store.name r) n = true ->
  Store.select_by_name n t = [r] /\
  exists before after : list Store.country_row,
    t = (before ++ r :: after)%list /\
    fst (Store.delete_by_name n t) = (before ++ after)%list /\
    snd (Store.delete_by_name n t) = 1%nat.
Proof.
  unfold Store.select_by_name, Store.delete_by_name; simpl.
  induction t as [| a t IH]; simpl; [intros _ [] |].
  intros [Ha Ht] Hin Hr.
  assert (Hrest : In r t -> Store.same_name (Store.name a) n = false).
  { intros H. apply (same_name_false_l _ (Store.name r)); [apply Ha, H | exact Hr]. }
  destruct Hin as [-> | Hin].
  - rewrite Hr. simpl.
    assert (Hnone : forall x, In x t -> Store.same_name (Store.name x) n = false).
    { intros x Hx. apply (same_name_false_l _ (Store.name r)); [| exact Hr].
      rewrite same_name_sym. apply Ha, Hx. }
    assert (Hsel : List.filter (fun x => Store.same_name (Store.name x) n) t = []).
    { clear -Hnone. induction t as [| b t IHt]; simpl; [reflexivity |].
      rewrite (Hnone b (or_introl eq_refl)). apply IHt.
      intros x Hx. apply Hnone. right. exact Hx. }
    assert (Hdel : List.filter (fun x => negb (Store.same_name (Store.name x) n)) t = t).
    { clear -Hnone. induction t as [| b t IHt]; simpl; [reflexivity |].
      rewrite (Hnone b (or_introl eq_refl)). simpl. f_equal. apply IHt.
      intros x Hx. apply Hnone. right. exact Hx. }
    rewrite Hsel. split; [reflexivity |].
    exists [], t. simpl. rewrite Hdel. repeat split.
  - rewrite (Hrest Hin). simpl.
    destruct (IH Ht Hin Hr) as (Hsel & before & after & Ht' & Hdel & Hcount).
    split; [exact Hsel |].
    exists (a :: before), after. simpl. rewrite Ht' at 1. rewrite Hdel.
    repeat split. exact Hcount.
Qed.

(** When no row matches, the select is empty and the delete changes
    nothing. *)
Lemma no_match (n : string) (t : list Store.country_row) :
  (forall r, In r t -> Store.same_name (Store.name r) n = false) ->
  Store.select_by_name n t = [] /\ Store.delete_by_name n t = (t, 0%nat).
Proof.
  unfold Store.select_by_name, Store.delete_by_name.
  induction t as [| a t IH]; simpl; [auto |].
  intros Hall. rewrite (Hall a (or_introl eq_refl)). simpl.
  destruct IH as [Hsel Hdel]; [intros r Hr; apply Hall; right; exact Hr |].
  injection Hdel as Hd Hc. rewrite Hsel, Hd. split; reflexivity.
Qed.

(** ** ORDER BY sorts *)

Section OrderBy.

Context {A : Type} (le : A -> A -> bool).
Hypothesis le_total : forall a b, le a b = true \/ le b a = true.
Hypothesis le_trans :
  forall a b c, le a b = true -> le b c = true -> le a c = true.

Lemma insert_by_perm (x : A) (l : list A) :
  Permutation (x :: l) (Store.insert_by le x l).
Proof using Type.
  induction l as [| y l IH]; simpl; [apply Permutation_refl |].
  destruct (le x y); [apply Permutation_refl |].
  eapply perm_trans; [apply perm_swap | apply perm_skip, IH].
Qed.

Lemma order_by_perm (l : list A) : Permutation l (Store.order_by le l).
Proof using Type.
  unfold Store.order_by.
  induction l as [| x l IH]; simpl; [apply perm_nil |].
  eapply perm_trans; [apply perm_skip, IH | apply insert_by_perm].
Qed.

Lemma insert_by_sorted (x : A) (l : list A) :
  StronglySorted (ordered_by le) l ->
  StronglySorted (ordered_by le) (Store.insert_by le x l).
Proof using le_total le_trans.
  induction 1 as [| y l Hl IH Hy]; simpl.
  - constructor; constructor.
  - destruct (le x y) eqn:E.
    + constructor; [constructor; assumption |].
      constructor; [exact E |].
      rewrite Forall_forall in Hy |- *. intros z Hz.
      apply (le_trans x y z E), Hy, Hz.
    + constructor; [exact IH |].
      assert (Hyx : ordered_by le y x).
      { destruct (le_total x y) as [H | H]; [congruence | exact H]. }
      rewrite Forall_forall in Hy |- *. intros z Hz.
      apply (Permutation_in _ (Permutation_sym (insert_by_perm x l))) in Hz.
      destruct Hz as [<- | Hz]; [exact Hyx | apply Hy, Hz].
Qed.

Lemma order_by_sorted (l : list A) :
  StronglySorted (ordered_by le) (Store.order_by le l).
Proof using le_total le_trans.
  unfold Store.order_by.
  induction l as [| x l IH]; simpl; [constructor | apply insert_by_sorted, IH].
Qed.

End OrderBy.

Lemma firstn_incl {A : Type} (n : nat) (l : list A) (x : A) :
  In x (firstn n l) -> In x l.
Proof.
  revert n. induction l as [| y l IH]; intros [| n]; simpl; try tauto.
  intros [H | H]; [left; exact H | right; apply (IH n), H].
Qed.

Lemma StronglySorted_firstn {A : Type} (R : A -> A -> Prop) (n : nat) (l : list A) :
  StronglySorted R l -> StronglySorted R (firstn n l).
Proof.
  intros H. revert n. induction H as [| x l Hl IH Hx]; intros [| n]; simpl;
    try constructor.
  - apply IH.
  - rewrite Forall_forall in Hx |- *. intros y Hy.
    apply Hx. apply (firstn_incl n). exact Hy.
Qed.

Lemma StronglySorted_map {A B : Type} (f : A -> B) (R : B -> B -> Prop) (l : list A) :
  StronglySorted (fun a b => R (f a) (f b)) l -> StronglySorted R (map f l).
Proof.
  induction 1 as [| x l Hl IH Hx]; simpl; constructor; [exact IH |].
  rewrite Forall_forall in Hx |- *. intros y Hy.
  apply in_map_iff in Hy. destruct Hy as (a & <- & Ha). apply Hx, Ha.
Qed.

Lemma gdp_le_desc_spec (a b : option Q) :
  Store.gdp_le Store.DESC a b = true <-> may_precede_desc a b.
Proof.
  destruct a as [x|], b as [y|]; simpl; try tauto.
  - apply Qle_bool_iff.
  - split; [discriminate | tauto].
Qed.

Lemma null_first_le_total (a b : option Q) :
  Store.null_first_le a b = true \/ Store.null_first_le b a = true.
Proof.
  destruct a as [x|], b as [y|]; simpl; auto.
  rewrite !Qle_bool_iff.
  destruct (Qlt_le_dec x y) as [H | H]; [left; apply Qlt_le_weak, H | right; exact H].
Qed.

Lemma null_first_le_trans (a b c : option Q) :
  Store.null_first_le a b = true -> Store.null_first_le b c = true ->
  Store.null_first_le a c = true.
Proof.
  destruct a as [x|], b as [y|], c as [z|]; simpl; auto; try discriminate.
  rewrite !Qle_bool_iff. apply Qle_trans.
Qed.

Lemma row_le_gdp_total (d : Store.direction) (a b : Store.country_row) :
  Store.row_le (Store.ByGdp d) a b = true \/ Store.row_le (Store.ByGdp d) b a = true.
Proof. destruct d; simpl; apply null_first_le_total. Qed.

Lemma row_le_gdp_trans (d : Store.direction) (a b c : Store.country_row) :
  Store.row_le (Store.ByGdp d) a b = true -> Store.row_le (Store.ByGdp d) b c = true ->
  Store.row_le (Store.ByGdp d) a c = true.
Proof.
  destruct d; simpl; intros H1 H2.
  - eapply null_first_le_trans; eassumption.
  - eapply null_first_le_trans; eassumption.
Qed.

Lemma StronglySorted_impl {A : Type} (R S : A -> A -> Prop) (l : list A) :
  (forall a b, R a b -> S a b) -> StronglySorted R l -> StronglySorted S l.
Proof.
  intros HRS. induction 1 as [| x l Hl IH Hx]; constructor; [exact IH |].
  rewrite Forall_forall in Hx |- *. intros y Hy. apply HRS, Hx, Hy.
Qed.

Lemma order_by_gdp_desc (t : list Store.country_row) :
  gdp_descending (Store.order_by (Store.row_le (Store.ByGdp Store.DESC)) t).
Proof.
  unfold gdp_descending.
  eapply StronglySorted_impl;
    [| apply (order_by_sorted _ (row_le_gdp_total Store.DESC)
                (row_le_gdp_trans Store.DESC))].
  intros a b H. apply gdp_le_desc_spec. exact H.
Qed.

Lemma select_top5_desc (t : list Store.country_row) :
  StronglySorted (fun p q => may_precede_desc (snd p) (snd q)) (Store.select_top5 t).
Proof.
  unfold Store.select_top5.
  apply StronglySorted_map with
    (f := fun r => (Store.name r, Store.estimated_gdp r))
    (R := fun p q => may_precede_desc (snd p) (snd q)).
  simpl. apply StronglySorted_firstn. apply order_by_gdp_desc.
Qed.

(* ===================================================================== *)
(** * Properties of the join step *)
(* ===================================================================== *)

(** The three derived columns of the row built by [upsert_values]. *)
Lemma upsert_values_derived (exchangeRates : gmap string Q) (ts : string)
    (country : Gateway.country) (g : rand) :
  let r := fst (upsert_values exchangeRates ts country g) in
  let code := joined_code country in
  let rate := joined_rate exchangeRates code in
  Store.name r = Gateway.name country /\
  Store.population r = joined_population country /\
  Store.currency_code r = code /\
  Store.exchange_rate r = rate /\
  Store.estimated_gdp r =
    match code with
    | None => Some 0
    | Some _ => fst (computeEstimatedGdp (joined_population country) rate g)
    end.
Proof.
  unfold upsert_values, joined_code, joined_rate, joined_population.
  destruct (computeEstimatedGdp _ _ g) as [gdp g']. simpl.
  repeat split; reflexivity.
Qed.

Lemma joined_population_nonneg (country : Gateway.country) :
  (0 <= joined_population country)%Z.
Proof. unfold joined_population. destruct (Gateway.population country); lia. Qed.

Lemma toUpperCase_truthy (s : string) :
  JS.truthy_string (JS.toUpperCase s) = JS.truthy_string s.
Proof. destruct s; reflexivity. Qed.

(** C3, counterexample: a descriptor whose currency is listed at rate 0
    yields a row with a code and a rate but no GDP figure. *)
Lemma C3_fails_at_zero_rate :
  ~ gdp_invariant (fst (upsert_values sample_rates "2026-01-01 00:00:00"
                          zeroland half_draws)).
Proof.
  intros (_ & _ & H).
  destruct H as (x & Hx & _).
  - vm_compute. discriminate.
  - vm_compute. discriminate.
  - vm_compute in Hx. discriminate Hx.
Qed.

(** A negative rate yields a negative figure: the third clause of the
    invariant depends on the sign of the rate, not only on its presence. *)
Lemma negative_rate_gives_negative_gdp :
  let r := fst (upsert_values negative_rates "2026-01-01 00:00:00"
                  negland half_draws) in
  Store.currency_code r = Some "NEG" /\
  Store.exchange_rate r = Some (-1) /\
  exists x, Store.estimated_gdp r = Some x /\ x < 0.
Proof.
  vm_compute. split; [reflexivity |]. split; [reflexivity |].
  eexists. split; reflexivity.
Qed.

(** C3, amended: for every row built by the join step, a null currency
    code comes with GDP 0; a code with a null rate comes with a null GDP;
    a code with a positive rate comes with a GDP that is present and not
    negative; a code with rate 0 comes with a null GDP. *)
Theorem upsert_values_invariant (exchangeRates : gmap string Q) (ts : string)
    (country : Gateway.country) (g : rand) :
  unit_draws g ->
  let r := fst (upsert_values exchangeRates ts country g) in
  (Store.currency_code r = None -> Store.estimated_gdp r = Some 0) /\
  (Store.currency_code r <> None -> Store.exchange_rate r = None ->
   Store.estimated_gdp r = None) /\
  (forall rate, Store.currency_code r <> None ->
     Store.exchange_rate r = Some rate -> 0 < rate ->
     nonneg_number (Store.estimated_gdp r)) /\
  (forall rate, Store.currency_code r <> None ->
     Store.exchange_rate r = Some rate -> rate == 0 ->
     Store.estimated_gdp r = None).
Proof.
  intros Hdraws r.
  destruct (upsert_values_derived exchangeRates ts country g)
    as (_ & _ & Hcode & Hrate & Hgdp).
  fold r in Hcode, Hrate, Hgdp.
  rewrite Hcode, Hrate, Hgdp.
  pose proof (joined_population_nonneg country) as Hpop.
  set (p := joined_population country) in *.
  destruct (joined_code country) as [c|]; (split; [| split; [| split]]).
  - discriminate.
  - intros _ ->. reflexivity.
  - intros rate _ Hr Hpos. rewrite Hr.
    assert (Hnz : ~ rate == 0).
    { intros Hz. rewrite Hz in Hpos. discriminate Hpos. }
    destruct (Z.eq_dec p 0) as [Hp | Hp].
    + exists 0. split; [| apply Qle_refl].
      rewrite Hp, computeEstimatedGdp_no_people by exact Hnz. reflexivity.
    + destruct (computeEstimatedGdp_drawn p rate g Hdraws Hnz Hp) as (m & Hm & Hres).
      exists (inject_Z (p * m) / rate). split; [exact Hres |].
      apply scaled_nonneg; (lia || assumption).
  - intros rate _ Hr Hz. rewrite Hr.
    apply computeEstimatedGdp_null. right. eauto.
  - intros _. reflexivity.
  - intros H. contradiction.
  - intros rate H. contradiction.
  - intros rate H. contradiction.
Qed.

(** The end-to-end descriptor of the specification satisfies the amended
    invariant. *)
Lemma upsert_values_invariant_witness :
  nonneg_number
    (Store.estimated_gdp
       (fst (upsert_values sample_rates "2026-01-01 00:00:00" testland half_draws))).
Proof.
  destruct (upsert_values_invariant sample_rates "2026-01-01 00:00:00"
              testland half_draws half_draws_ok) as (_ & _ & H & _).
  apply (H 2); [vm_compute; discriminate | vm_compute; reflexivity | reflexivity].
Defined.

(** C9: when the first entry of a non-empty currency list has no code, or
    an empty one, the row carries the empty string as its code, which is
    not null, so it gets no rate and a null GDP instead of 0 (the override
    to 0 applies to a null code only); the upsert stores these values
    under the country's name whatever the table held. *)
Theorem missing_code_stored_as_empty_string (exchangeRates : gmap string Q)
    (ts : string) (country : Gateway.country) (c0 : Gateway.currency)
    (others : list Gateway.currency) (g : rand) :
  Gateway.currencies country = Some (c0 :: others) ->
  Gateway.code c0 = None \/ Gateway.code c0 = Some "" ->
  let r := fst (upsert_values exchangeRates ts country g) in
  (Store.currency_code r = Some "" /\
   Store.currency_code r <> None /\
   Store.exchange_rate r = None /\
   Store.estimated_gdp r = None /\
   Store.estimated_gdp r <> Some 0) /\
  (forall t : list Store.country_row,
     exists stored,
       In stored (Store.upsert r t) /\
       Store.same_name (Store.name stored) (Gateway.name country) = true /\
       Store.currency_code stored = Some "" /\
       Store.exchange_rate stored = None /\
       Store.estimated_gdp stored = None).
Proof.
  intros Hcur Hcode r.
  destruct (upsert_values_derived exchangeRates ts country g)
    as (Hname & _ & Hc & Hrate & Hgdp).
  fold r in Hname, Hc, Hrate, Hgdp.
  assert (Hjc : joined_code country = Some "").
  { unfold joined_code. rewrite Hcur. destruct Hcode as [-> | ->]; reflexivity. }
  rewrite Hjc in Hc, Hrate, Hgdp. cbn in Hrate, Hgdp.
  split.
  - rewrite Hc, Hrate, Hgdp. repeat split; discriminate.
  - intros t. destruct (upsert_stored r t) as (stored & Hin & Hsame & Hcols).
    destruct Hcols as (_ & _ & _ & Hc' & Hr' & Hg' & _).
    exists stored. rewrite Hname in Hsame.
    repeat split; [exact Hin | exact Hsame | | |]; congruence.
Qed.

Lemma missing_code_stored_as_empty_string_witness :
  Store.currency_code
    (fst (upsert_values sample_rates "2026-01-01 00:00:00" codeless half_draws))
    = Some "" /\
  Store.estimated_gdp
    (fst (upsert_values sample_rates "2026-01-01 00:00:00" codeless half_draws))
    = None.
Proof.
  destruct (missing_code_stored_as_empty_string sample_rates
              "2026-01-01 00:00:00" codeless (Gateway.mkCurrency None) []
              half_draws) as ((H1 & _ & _ & H2 & _) & _).
  - reflexivity.
  - left. reflexivity.
  - split; [exact H1 | exact H2].
Defined.

(** C10: when the first currency has a non-empty code whose upper-case
    form is listed at rate 0, the row carries that rate and a null GDP,
    and the upsert stores both under the country's name; the estimator
    answers [null] for every population at a rate equal to 0, and whenever
    it answers a number the divisor was not 0. *)
Theorem zero_rate_gives_null_gdp (exchangeRates : gmap string Q) (ts : string)
    (country : Gateway.country) (c0 : Gateway.currency)
    (others : list Gateway.currency) (c : string) (rate : Q) (g : rand) :
  Gateway.currencies country = Some (c0 :: others) ->
  Gateway.code c0 = Some c -> c <> "" ->
  exchangeRates !! JS.toUpperCase c = Some rate -> rate == 0 ->
  let r := fst (upsert_values exchangeRates ts country g) in
  Store.exchange_rate r = Some rate /\
  Store.estimated_gdp r = None /\
  (forall population g', computeEstimatedGdp population (Some rate) g' = (None, g')) /\
  (forall population x g' v,
     fst (computeEstimatedGdp population (Some x) g') = Some v -> ~ x == 0) /\
  (forall t : list Store.country_row,
     exists stored,
       In stored (Store.upsert r t) /\
       Store.same_name (Store.name stored) (Gateway.name country) = true /\
       Store.exchange_rate stored = Some rate /\
       Store.estimated_gdp stored = None).
Proof.
  intros Hcur Hcode Hne Hlook Hz r.
  destruct (upsert_values_derived exchangeRates ts country g)
    as (Hname & _ & Hc & Hrate & Hgdp).
  fold r in Hname, Hc, Hrate, Hgdp.
  assert (Hnull : fst (computeEstimatedGdp (joined_population country)
                         (Some rate) g) = None).
  { apply computeEstimatedGdp_null. right. eauto. }
  assert (Hjc : joined_code country = Some (JS.toUpperCase c)).
  { unfold joined_code. rewrite Hcur, Hcode. reflexivity. }
  assert (Hjr : joined_rate exchangeRates (Some (JS.toUpperCase c)) = Some rate).
  { unfold joined_rate, JS.truthy. rewrite toUpperCase_truthy.
    destruct c; [contradiction | exact Hlook]. }
  rewrite Hjc in Hrate, Hgdp. rewrite Hjr in Hrate, Hgdp.
  rewrite Hnull in Hgdp.
  split; [exact Hrate |]. split; [exact Hgdp |]. split; [| split].
  - intros population g'. unfold computeEstimatedGdp.
    apply is_zero_true in Hz. rewrite Hz. reflexivity.
  - intros population x g' v Hv Hx.
    assert (Hnone : fst (computeEstimatedGdp population (Some x) g') = None).
    { apply computeEstimatedGdp_null. right. eauto. }
    congruence.
  - intros t. destruct (upsert_stored r t) as (stored & Hin & Hsame & Hcols).
    destruct Hcols as (_ & _ & _ & _ & Hr' & Hg' & _).
    exists stored. rewrite Hname in Hsame.
    repeat split; [exact Hin | exact Hsame | |]; congruence.
Qed.

Lemma zero_rate_gives_null_gdp_witness :
  Store.exchange_rate
    (fst (upsert_values sample_rates "2026-01-01 00:00:00" zeroland half_draws))
    = Some 0 /\
  Store.estimated_gdp
    (fst (upsert_values sample_rates "2026-01-01 00:00:00" zeroland half_draws))
    = None.
Proof.
  destruct (zero_rate_gives_null_gdp sample_rates "2026-01-01 00:00:00"
              zeroland (Gateway.mkCurrency (Some "zer")) [] "zer" 0 half_draws)
    as (H1 & H2 & _).
  - reflexivity.
  - reflexivity.
  - discriminate.
  - vm_compute. reflexivity.
  - reflexivity.
  - split; [exact H1 | exact H2].
Defined.

(* ===================================================================== *)
(** * Properties of the read and delete handlers *)
(* ===================================================================== *)

(** A statement sent through the pool when the round trip succeeds. *)
Lemma pool_query_run {A : Type} (rt : runtime)
    (stmt : Store.database -> A * Store.database) (w : world) :
  store_faults rt (store_calls w) = false ->
  pool_query rt stmt w =
    (Returned (fst (stmt (committed w))),
     set_committed (snd (stmt (committed w)))
       (set_store_calls (S (store_calls w)) w)).
Proof.
  intros H. unfold pool_query, round_trip. rewrite H.
  cbn [committed set_store_calls]. destruct (stmt (committed w)). reflexivity.
Qed.

(** Without condition the WHERE clause keeps every row. *)
Lemma filter_no_condition (t : list Store.country_row) :
  List.filter (fun r => forallb (fun c => Store.holds c r) []) t = t.
Proof.
  induction t as [| a t IH]; [reflexivity |].
  change (a :: List.filter
                 (fun r => forallb (fun c => Store.holds c r) []) t = a :: t).
  rewrite IH. reflexivity.
Qed.

(** C7: [GET /countries?sort=gdp_desc] answers the selected rows, each
    once, in an order where GDP never increases and no null GDP stands
    before a number; the top-5 read-back of the refresh obeys the same
    order: it is the name and GDP of the first five rows of what the
    unfiltered [GET /countries?sort=gdp_desc] answers on the same table,
    and it changes nothing. *)
Theorem gdp_desc_sorts_nulls_last (rt : runtime) (region currency : option string)
    (d : Store.database) (g : rand) (img : option summary_image) :
  store_faults rt 0 = false ->
  (exists rows,
     response (snd (getCountries rt region currency (Some "gdp_desc")
                      (request_start d g img)))
       = Some (Http.mkResponse 200 (Http.RowsBody rows)) /\
     Permutation
       (List.filter
          (fun r => forallb (fun c => Store.holds c r) (conditions region currency))
          (Store.countries d))
       rows /\
     gdp_descending rows) /\
  StronglySorted (fun p q => may_precede_desc (snd p) (snd q))
    (fst (sql_select_top5 d)) /\
  (exists all_rows,
     response (snd (getCountries rt None None (Some "gdp_desc")
                      (request_start d g img)))
       = Some (Http.mkResponse 200 (Http.RowsBody all_rows)) /\
     Permutation (Store.countries d) all_rows /\
     gdp_descending all_rows /\
     sql_select_top5 d = (map name_and_gdp (firstn 5 all_rows), d)).
Proof.
  intros Hok. split; [| split].
  - unfold getCountries, try_catch, bind.
    rewrite pool_query_run by exact Hok.
    cbn [fst snd res_json res_status_json set_response response].
    eexists. split; [reflexivity |].
    change (orderBy (Some "gdp_desc")) with (Store.ByGdp Store.DESC).
    unfold Store.select_where. split.
    + apply order_by_perm.
    + apply order_by_gdp_desc.
  - apply select_top5_desc.
  - unfold getCountries, try_catch, bind.
    rewrite pool_query_run by exact Hok.
    cbn [fst snd res_json res_status_json set_response response].
    eexists. split; [reflexivity |].
    change (orderBy (Some "gdp_desc")) with (Store.ByGdp Store.DESC).
    change (conditions None None) with (@nil Store.condition).
    unfold Store.select_where.
    cbn [committed request_start set_store_calls].
    rewrite filter_no_condition.
    split; [apply order_by_perm |].
    split; [apply order_by_gdp_desc | reflexivity].
Qed.

Lemma gdp_desc_sorts_nulls_last_witness :
  response (snd (getCountries quiet None None (Some "gdp_desc")
                   (request_start sample_db half_draws None)))
  = Some (Http.mkResponse 200
            (Http.RowsBody [row_of "France" (Some 2); row_of "Alpha" (Some 1);
                            row_of "Beta" None])) /\
  gdp_descending [row_of "France" (Some 2); row_of "Alpha" (Some 1); row_of "Beta" None].
Proof.
  destruct (gdp_desc_sorts_nulls_last quiet None None sample_db half_draws None)
    as [(rows & Hresp & _ & Hsorted) _].
  - reflexivity.
  - assert (Hrows : rows = [row_of "France" (Some 2); row_of "Alpha" (Some 1);
                            row_of "Beta" None]).
    { vm_compute in Hresp. injection Hresp as <-. reflexivity. }
    rewrite Hrows in Hsorted. split; [reflexivity | exact Hsorted].
Defined.

(** C8: under the unique key on names, a request name equal to a stored
    name up to case makes the read answer that row and the delete remove
    that row and no other; a request name matching no row makes both
    answer 404 "Country not found" and leaves the store as it was. *)
Theorem name_lookup_ignores_case (rt : runtime) (d : Store.database) (g : rand)
    (img : option summary_image) :
  store_faults rt 0 = false ->
  Store.unique_names (Store.countries d) ->
  let w0 := request_start d g img in
  (forall r n,
     In r (Store.countries d) ->
     JS.toLowerCase n = JS.toLowerCase (Store.name r) ->
     let wg := snd (getCountryByName rt n w0) in
     let wd := snd (deleteCountry rt n w0) in
     response wg = Some (Http.mkResponse 200 (Http.RowBody r)) /\
     committed wg = d /\
     response wd
       = Some (Http.mkResponse 200 (Http.MessageBody "Country deleted successfully.")) /\
     Store.status (committed wd) = Store.status d /\
     exists before after : list Store.country_row,
       Store.countries d = (before ++ r :: after)%list /\
       Store.countries (committed wd) = (before ++ after)%list) /\
  (forall n,
     (forall r, In r (Store.countries d) ->
                JS.toLowerCase n <> JS.toLowerCase (Store.name r)) ->
     let wg := snd (getCountryByName rt n w0) in
     let wd := snd (deleteCountry rt n w0) in
     response wg = Some (Http.mkResponse 404 (Http.ErrorBody "Country not found" None)) /\
     committed wg = d /\
     response wd = Some (Http.mkResponse 404 (Http.ErrorBody "Country not found" None)) /\
     committed wd = d).
Proof.
  intros Hok Huniq w0. split.
  - intros r n Hin Hcase wg wd.
    assert (Hm : Store.same_name (Store.name r) n = true).
    { apply same_name_iff. symmetry. exact Hcase. }
    destruct (match_is_unique n _ r Huniq Hin Hm)
      as (Hsel & before & after & Ht & Hdel & Hcount).
    subst wg wd. unfold getCountryByName, deleteCountry, try_catch, bind.
    rewrite !pool_query_run by exact Hok.
    cbn [fst snd committed w0 request_start set_store_calls].
    rewrite Hsel.
    destruct (Store.delete_by_name n (Store.countries d)) as [rest k] eqn:E.
    cbn [fst snd] in Hdel, Hcount |- *. subst rest k.
    cbn. destruct d as [t s]. cbn in *.
    repeat split. exists before, after. split; [exact Ht | reflexivity].
  - intros n Hnone wg wd.
    assert (Hm : forall r, In r (Store.countries d) ->
                           Store.same_name (Store.name r) n = false).
    { intros r Hr. destruct (Store.same_name (Store.name r) n) eqn:E; [| reflexivity].
      apply same_name_iff in E. exfalso. apply (Hnone r Hr). symmetry. exact E. }
    destruct (no_match n _ Hm) as [Hsel Hdel].
    subst wg wd. unfold getCountryByName, deleteCountry, try_catch, bind.
    rewrite !pool_query_run by exact Hok.
    cbn [fst snd committed w0 request_start set_store_calls].
    rewrite Hsel, Hdel. cbn. destruct d as [t s]. repeat split.
Qed.

Lemma sample_db_unique : Store.unique_names (Store.countries sample_db).
Proof.
  simpl. repeat split; intros r' H; simpl in H;
    repeat (destruct H as [<- | H]; [reflexivity |]); destruct H.
Defined.

Lemma name_lookup_ignores_case_witness :
  response (snd (getCountryByName quiet "FRANCE"
                   (request_start sample_db half_draws None)))
  = Some (Http.mkResponse 200 (Http.RowBody (row_of "France" (Some 2)))) /\
  response (snd (deleteCountry quiet "Atlantis"
                   (request_start sample_db half_draws None)))
  = Some (Http.mkResponse 404 (Http.ErrorBody "Country not found" None)).
Proof.
  destruct (name_lookup_ignores_case quiet sample_db half_draws None eq_refl
              sample_db_unique) as [Hhit Hmiss].
  split.
  - apply (Hhit (row_of "France" (Some 2)) "FRANCE").
    + simpl. right. right. left. reflexivity.
    + reflexivity.
  - apply (Hmiss "Atlantis").
    intros r H. simpl in H.
    repeat (destruct H as [<- | H]; [vm_compute; discriminate |]). destruct H.
Defined.

(** ** The sort selector *)


(** C6, the defect: the selector "gdp_desc_extra" is neither "gdp_desc"
    nor "gdp_asc", yet the rows come back by descending GDP (Beta before
    Alpha) and not by name as for an unknown selector such as "name". *)
Lemma sort_with_extra_segment_orders_by_gdp :
  orderBy (Some "gdp_desc_extra") = Store.ByGdp Store.DESC /\
  response (snd (getCountries quiet None None (Some "gdp_desc_extra")
                   (request_start two_rows half_draws None)))
  = Some (Http.mkResponse 200
            (Http.RowsBody [row_of "Beta" (Some 2); row_of "Alpha" (Some 1)])) /\
  response (snd (getCountries quiet None None (Some "name")
                   (request_start two_rows half_draws None)))
  = Some (Http.mkResponse 200
            (Http.RowsBody [row_of "Alpha" (Some 1); row_of "Beta" (Some 2)])).
Proof. repeat split. Qed.

(* ===================================================================== *)
(** * Properties of the refresh *)
(* ===================================================================== *)

Lemma bind_returned {A B : Type} (c : M A) (k : A -> M B) (w w' : world) (a : A) :
  c w = (Returned a, w') -> bind c k w = k a w'.
Proof. intros H. unfold bind. rewrite H. reflexivity. Qed.

Lemma bind_thrown {A B : Type} (c : M A) (k : A -> M B) (w w' : world) (e : exn) :
  c w = (Thrown e, w') -> bind c k w = (Thrown e, w').
Proof. intros H. unfold bind. rewrite H. reflexivity. Qed.

Lemma bind_assoc {A B C : Type} (c : M A) (k0 : A -> M B) (k : B -> M C) (w : world) :
  bind (bind c k0) k w = bind c (fun a => bind (k0 a) k) w.
Proof. unfold bind. destruct (c w) as [[a | e] w']; reflexivity. Qed.

Lemma round_trip_ok {A : Type} (rt : runtime) (c : M A) (w : world) :
  store_faults rt (store_calls w) = false ->
  round_trip rt c w = c (set_store_calls (S (store_calls w)) w).
Proof. intros H. unfold round_trip. rewrite H. reflexivity. Qed.

Lemma round_trip_fault {A : Type} (rt : runtime) (c : M A) (w : world) :
  store_faults rt (store_calls w) = true ->
  round_trip rt c w = (Thrown StoreError, set_store_calls (S (store_calls w)) w).
Proof. intros H. unfold round_trip. rewrite H. reflexivity. Qed.

(** A statement sent inside the open transaction touches the
    transaction's copy only. *)
Lemma connection_query_ok {A : Type} (rt : runtime)
    (stmt : Store.database -> A * Store.database)
    (cm dtx : Store.database) (rel : bool) (k : nat) (g : rand)
    (im : option summary_image) (rs : option Http.response) :
  store_faults rt k = false ->
  connection_query rt stmt (mkWorld cm (Some (mkSession (Some dtx) rel)) k g im rs)
  = (Returned (fst (stmt dtx)),
     mkWorld cm (Some (mkSession (Some (snd (stmt dtx))) rel)) (S k) g im rs).
Proof.
  intros H. unfold connection_query. rewrite round_trip_ok by exact H.
  cbn. destruct (stmt dtx). reflexivity.
Qed.

Lemma connection_query_fault {A : Type} (rt : runtime)
    (stmt : Store.database -> A * Store.database)
    (cm : Store.database) (c : option session) (k : nat) (g : rand)
    (im : option summary_image) (rs : option Http.response) :
  store_faults rt k = true ->
  connection_query rt stmt (mkWorld cm c k g im rs)
  = (Thrown StoreError, mkWorld cm c (S k) g im rs).
Proof.
  intros H. unfold connection_query. rewrite round_trip_fault by exact H.
  reflexivity.
Qed.

(** The loop of [refreshCountries], started inside an open transaction:
    either no round trip fails and every descriptor has been joined and
    upserted into the transaction's copy, or the first failing round trip
    stops it; the committed contents are the same in both cases. *)
Lemma refresh_loop (rt : runtime) (exchangeRates : gmap string Q) (ts : string)
    (l : list Gateway.country) :
  forall (total : Z) (cm dtx : Store.database) (rel : bool) (k : nat) (g : rand)
         (im : option summary_image) (rs : option Http.response),
  let run :=
    for_of l
      (fun country totalCountries =>
         values <- with_rng (upsert_values exchangeRates ts country) ;;
         connection_query rt (sql_upsert values) ;;
         ret (totalCountries + 1)%Z)
      total (mkWorld cm (Some (mkSession (Some dtx) rel)) k g im rs) in
  ((forall j, (j < List.length l)%nat -> store_faults rt (k + j) = false) /\
   run = (Returned (total + Z.of_nat (List.length l))%Z,
          mkWorld cm
            (Some (mkSession
               (Some (Store.mkDb
                        (upsert_all (fst (join_all exchangeRates ts l g))
                                    (Store.countries dtx))
                        (Store.status dtx)))
               rel))
            (k + List.length l) (snd (join_all exchangeRates ts l g)) im rs))
  \/
  ((exists j, (j < List.length l)%nat /\ store_faults rt (k + j) = true) /\
   exists dtx' k' g',
     run = (Thrown StoreError,
            mkWorld cm (Some (mkSession (Some dtx') rel)) k' g' im rs)).
Proof.
  induction l as [| country l IH]; intros total cm dtx rel k g im rs run; subst run.
  - left. split; [intros j Hj; inversion Hj |].
    cbn [for_of ret join_all fst snd upsert_all fold_left List.length].
    rewrite Z.add_0_r, Nat.add_0_r. destruct dtx. reflexivity.
  - cbn [for_of].
    assert (Hjoin : with_rng (upsert_values exchangeRates ts country)
                      (mkWorld cm (Some (mkSession (Some dtx) rel)) k g im rs)
                    = (Returned (fst (upsert_values exchangeRates ts country g)),
                       mkWorld cm (Some (mkSession (Some dtx) rel)) k
                         (snd (upsert_values exchangeRates ts country g)) im rs)).
    { unfold with_rng. cbn. destruct (upsert_values _ _ _ g). reflexivity. }
    destruct (upsert_values exchangeRates ts country g) as [v g1] eqn:Ev.
    cbn [fst snd] in Hjoin.
    destruct (store_faults rt k) eqn:Fk.
    + right. split; [exists 0%nat; split; [cbn; lia | rewrite Nat.add_0_r; exact Fk] |].
      exists dtx, (S k), g1.
      rewrite bind_assoc, (bind_returned _ _ _ _ _ Hjoin).
      rewrite bind_assoc, (bind_thrown _ _ _ _ _ (connection_query_fault rt _ _ _ _ _ _ _ Fk)).
      reflexivity.
    + rewrite bind_assoc, (bind_returned _ _ _ _ _ Hjoin).
      rewrite bind_assoc,
        (bind_returned _ _ _ _ _ (connection_query_ok rt _ _ _ _ _ _ _ _ Fk)).
      unfold bind at 1, ret at 1.
      specialize (IH (total + 1)%Z cm
                     (snd (sql_upsert v dtx)) rel (S k) g1 im rs).
      cbv zeta in IH. cbn [sql_upsert snd Store.countries Store.status] in IH |- *.
      destruct IH as [[Hall Hrun] | [(j & Hj & Fj) (dtx' & k' & g' & Hrun)]].
      * left. split.
        -- intros [| j] Hj; [rewrite Nat.add_0_r; exact Fk |].
           rewrite Nat.add_succ_r. apply Hall. cbn in Hj. lia.
        -- rewrite Hrun. cbn [join_all List.length]. rewrite Ev.
           destruct (join_all exchangeRates ts l g1) as [vs g2].
           cbn [fst snd upsert_all fold_left].
           f_equal; [f_equal; lia | f_equal; lia].
      * right. split.
        -- exists (S j). split; [cbn; lia | rewrite Nat.add_succ_r; exact Fj].
        -- exists dtx', k', g'. exact Hrun.
Qed.

Lemma try_catch_returned {A : Type} (c : M A) (h : exn -> M A) (w w' : world) (a : A) :
  c w = (Returned a, w') -> try_catch c h w = (Returned a, w').
Proof. intros H. unfold try_catch. rewrite H. reflexivity. Qed.

Lemma try_catch_thrown {A : Type} (c : M A) (h : exn -> M A) (w w' : world) (e : exn) :
  c w = (Thrown e, w') -> try_catch c h w = h e w'.
Proof. intros H. unfold try_catch. rewrite H. reflexivity. Qed.

(** The store primitives on an explicit world, with and without a fault. *)
Section Primitives.

Variables (rt : runtime) (cm : Store.database) (k : nat) (g : rand)
          (im : option summary_image) (rs : option Http.response).

Lemma getConnection_ok (c : option session) :
  store_faults rt k = false ->
  pool_getConnection rt (mkWorld cm c k g im rs)
  = (Returned tt, mkWorld cm (Some (mkSession None false)) (S k) g im rs).
Proof. intros H. unfold pool_getConnection. rewrite round_trip_ok by exact H. reflexivity. Qed.

Lemma getConnection_fault (c : option session) :
  store_faults rt k = true ->
  pool_getConnection rt (mkWorld cm c k g im rs)
  = (Thrown StoreError, mkWorld cm c (S k) g im rs).
Proof. intros H. unfold pool_getConnection. rewrite round_trip_fault by exact H. reflexivity. Qed.

Lemma beginTransaction_ok (s : session) :
  store_faults rt k = false ->
  beginTransaction rt (mkWorld cm (Some s) k g im rs)
  = (Returned tt, mkWorld cm (Some (mkSession (Some cm) (released s))) (S k) g im rs).
Proof. intros H. unfold beginTransaction. rewrite round_trip_ok by exact H. reflexivity. Qed.

Lemma beginTransaction_fault (c : option session) :
  store_faults rt k = true ->
  beginTransaction rt (mkWorld cm c k g im rs)
  = (Thrown StoreError, mkWorld cm c (S k) g im rs).
Proof. intros H. unfold beginTransaction. rewrite round_trip_fault by exact H. reflexivity. Qed.

Lemma commit_ok (dtx : Store.database) (rel : bool) :
  store_faults rt k = false ->
  commit rt (mkWorld cm (Some (mkSession (Some dtx) rel)) k g im rs)
  = (Returned tt, mkWorld dtx (Some (mkSession None rel)) (S k) g im rs).
Proof. intros H. unfold commit. rewrite round_trip_ok by exact H. reflexivity. Qed.

Lemma commit_fault (c : option session) :
  store_faults rt k = true ->
  commit rt (mkWorld cm c k g im rs)
  = (Thrown StoreError, mkWorld cm c (S k) g im rs).
Proof. intros H. unfold commit. rewrite round_trip_fault by exact H. reflexivity. Qed.

Lemma generateSummaryImage_ok (c : option session) (total : Z)
    (top : list (string * option Q)) (refreshedAt : string) :
  render_fault rt = false ->
  generateSummaryImage rt total top refreshedAt (mkWorld cm c k g im rs)
  = (Returned tt, mkWorld cm c k g (Some (mkImage total top refreshedAt)) rs).
Proof. intros H. unfold generateSummaryImage. rewrite H. reflexivity. Qed.

Lemma generateSummaryImage_fault (c : option session) (total : Z)
    (top : list (string * option Q)) (refreshedAt : string) :
  render_fault rt = true ->
  generateSummaryImage rt total top refreshedAt (mkWorld cm c k g im rs)
  = (Thrown RenderError, mkWorld cm c k g im rs).
Proof. intros H. unfold generateSummaryImage. rewrite H. reflexivity. Qed.

End Primitives.

(** Every run of the refresh once both gateways have answered bodies that
    pass the shape test.  Round trip 0 takes the connection, 1 opens the transaction,
    2 to n+1 are the upserts, n+2 writes the status row, n+3 reads the
    top 5 back and n+4 commits; the image is rendered between n+3 and n+4.
    Either none of them fails and the store holds the complete refresh, or
    one fails and the store holds what it held before. *)
Lemma refresh_run (rt : runtime) (e : Gateway.exchange_data)
    (rates : gmap string Q) (l : list Gateway.country)
    (d : Store.database) (g : rand) (img : option summary_image) :
  exchange_get rt = Gateway.Resolved e ->
  exchange_rates_of e = Some rates ->
  country_get rt = Gateway.Resolved (Gateway.CountryArray l) ->
  let n := List.length l in
  let ts := dbTimestamp_of (now_iso rt) in
  let w' := snd (refreshCountries rt (request_start d g img)) in
  ((forall k, (k < n + 5)%nat -> store_faults rt k = false) /\
   render_fault rt = false /\
   committed w' = refreshed rates ts l g d /\
   connection w' = Some (mkSession None true) /\
   response w' = Some (refresh_done n (now_iso rt)))
  \/
  (((exists k, (k < n + 5)%nat /\ store_faults rt k = true) \/ render_fault rt = true) /\
   committed w' = d /\
   (connection w' = None \/ connection w' = Some (mkSession None true)) /\
   response w' = Some internal_error).
Proof.
  intros Hex He Hco n ts w'.
  assert (Hfetch : forall h w,
            try_catch (Promise_all rt) h w
            = (Returned (e, Gateway.CountryArray l), w)).
  { intros h w. unfold Promise_all. rewrite Hex, Hco. reflexivity. }
  remember (refreshCountries rt (request_start d g img)) as run eqn:Hrun.
  unfold refreshCountries, request_start in Hrun. cbv zeta in Hrun.
  unfold try_catch at 1 in Hrun.
  rewrite (bind_returned _ _ _ _ _ (Hfetch _ _)) in Hrun.
  cbn [fst snd country_array_of] in Hrun. rewrite He in Hrun.
  fold ts in Hrun.
  destruct (store_faults rt 0) eqn:F0.
  { right. rewrite (bind_thrown _ _ _ _ _ (getConnection_fault rt _ _ _ _ _ _ F0)) in Hrun.
    cbn in Hrun. subst w' run. cbn.
    split; [left; exists 0%nat; split; [lia | exact F0] |]. auto. }
  rewrite (bind_returned _ _ _ _ _ (getConnection_ok rt _ _ _ _ _ _ F0)) in Hrun.
  destruct (store_faults rt 1) eqn:F1.
  { right. rewrite (bind_thrown _ _ _ _ _ (beginTransaction_fault rt _ _ _ _ _ _ F1)) in Hrun.
    cbn in Hrun. subst w' run. cbn.
    split; [left; exists 1%nat; split; [lia | exact F1] |]. auto. }
  rewrite (bind_returned _ _ _ _ _ (beginTransaction_ok rt _ _ _ _ _ _ F1)) in Hrun.
  cbn [released] in Hrun.
  destruct (refresh_loop rt rates ts l 0%Z d d false 2 g img None)
    as [[Hall Hloop] | [(j & Hj & Fj) (dtx' & k' & g' & Hloop)]].
  2:{ right. rewrite (bind_thrown _ _ _ _ _ Hloop) in Hrun.
      cbn in Hrun. subst w' run. cbn.
      split; [left; exists (2 + j)%nat; split; [fold n in Hj; lia | exact Fj] |]. auto. }
  rewrite (bind_returned _ _ _ _ _ Hloop) in Hrun.
  rewrite Z.add_0_l in Hrun.
  set (joined := join_all rates ts l g) in *.
  fold n in Hrun, Hall.
  destruct (store_faults rt (2 + n)) eqn:F2.
  { right. rewrite (bind_thrown _ _ _ _ _ (connection_query_fault rt _ _ _ _ _ _ _ F2)) in Hrun.
    cbn in Hrun. subst w' run. cbn.
    split; [left; exists (2 + n)%nat; split; [lia | exact F2] |]. auto. }
  rewrite (bind_returned _ _ _ _ _ (connection_query_ok rt _ _ _ _ _ _ _ _ F2)) in Hrun.
  cbn [sql_update_status fst snd Store.countries Store.status] in Hrun.
  destruct (store_faults rt (S (2 + n))) eqn:F3.
  { right. rewrite (bind_thrown _ _ _ _ _ (connection_query_fault rt _ _ _ _ _ _ _ F3)) in Hrun.
    cbn in Hrun. subst w' run. cbn.
    split; [left; exists (S (2 + n))%nat; split; [lia | exact F3] |]. auto. }
  rewrite (bind_returned _ _ _ _ _ (connection_query_ok rt _ _ _ _ _ _ _ _ F3)) in Hrun.
  cbn [sql_select_top5 fst snd Store.countries Store.status] in Hrun.
  destruct (render_fault rt) eqn:FR.
  { right. rewrite (bind_thrown _ _ _ _ _ (generateSummaryImage_fault rt _ _ _ _ _ _ _ _ _ FR)) in Hrun.
    cbn in Hrun. subst w' run. cbn.
    split; [right; reflexivity |]. auto. }
  rewrite (bind_returned _ _ _ _ _ (generateSummaryImage_ok rt _ _ _ _ _ _ _ _ _ FR)) in Hrun.
  destruct (store_faults rt (S (S (2 + n)))) eqn:F4.
  { right. rewrite (bind_thrown _ _ _ _ _ (commit_fault rt _ _ _ _ _ _ F4)) in Hrun.
    cbn in Hrun. subst w' run. cbn.
    split; [left; exists (S (S (2 + n)))%nat; split; [lia | exact F4] |]. auto. }
  rewrite (bind_returned _ _ _ _ _ (commit_ok rt _ _ _ _ _ _ _ F4)) in Hrun.
  cbn in Hrun. subst w' run. cbn.
  left. split; [| auto].
  intros k Hk.
  destruct (Nat.eq_dec k 0) as [-> | H0]; [exact F0 |].
  destruct (Nat.eq_dec k 1) as [-> | H1]; [exact F1 |].
  destruct (Nat.lt_ge_cases k (2 + n)) as [Hlt | Hge].
  { replace k with (2 + (k - 2))%nat by lia. apply Hall. lia. }
  destruct (Nat.eq_dec k (2 + n)) as [-> | H2]; [exact F2 |].
  destruct (Nat.eq_dec k (S (2 + n))) as [-> | H3]; [exact F3 |].
  replace k with (S (S (2 + n))) by lia. exact F4.
Qed.

(** C1: once both gateways have answered bodies that pass the shape
    test of the handler, a refresh in which any round
    trip to the store fails (an upsert, the status write, the top-5
    read-back, the commit, or taking the connection and opening the
    transaction) or in which the image cannot be rendered leaves the
    countries table and the status row exactly as they were, with no
    transaction left open, and answers 500; a refresh in which nothing
    fails makes all the upserts and the status write visible at once. *)
Theorem refresh_is_atomic (rt : runtime) (e : Gateway.exchange_data)
    (rates : gmap string Q) (l : list Gateway.country) (d : Store.database)
    (g : rand) (img : option summary_image) :
  exchange_get rt = Gateway.Resolved e ->
  exchange_rates_of e = Some rates ->
  country_get rt = Gateway.Resolved (Gateway.CountryArray l) ->
  let n := List.length l in
  let ts := dbTimestamp_of (now_iso rt) in
  let w' := snd (refreshCountries rt (request_start d g img)) in
  (((exists k, (k < n + 5)%nat /\ store_faults rt k = true) \/ render_fault rt = true) ->
   committed w' = d /\
   (forall s, connection w' = Some s -> tx s = None) /\
   response w' = Some internal_error) /\
  ((forall k, (k < n + 5)%nat -> store_faults rt k = false) ->
   render_fault rt = false ->
   committed w' = refreshed rates ts l g d /\
   (forall s, connection w' = Some s -> tx s = None) /\
   response w' = Some (refresh_done n (now_iso rt))).
Proof.
  intros Hex He Hco n ts w'.
  destruct (refresh_run rt e rates l d g img Hex He Hco)
    as [(Hquiet & Hrender & Hdb & Hconn & Hresp) | (Hfault & Hdb & Hconn & Hresp)];
    fold n ts w' in Hdb, Hconn, Hresp; fold n in Hquiet || fold n in Hfault.
  - split.
    + intros [(k & Hk & Fk) | Fr].
      * rewrite (Hquiet k Hk) in Fk. discriminate.
      * rewrite Hrender in Fr. discriminate.
    + intros _ _. split; [exact Hdb |]. split; [| exact Hresp].
      intros s Hs. rewrite Hconn in Hs. injection Hs as <-. reflexivity.
  - split.
    + intros _. split; [exact Hdb |]. split; [| exact Hresp].
      intros s Hs. destruct Hconn as [Hc | Hc]; rewrite Hc in Hs;
        [discriminate | injection Hs as <-; reflexivity].
    + intros Hquiet Hrender. exfalso.
      destruct Hfault as [(k & Hk & Fk) | Fr].
      * rewrite (Hquiet k Hk) in Fk. discriminate.
      * rewrite Hrender in Fr. discriminate.
Qed.

Lemma refresh_is_atomic_witness :
  committed (snd (refreshCountries second_upsert_fails
                    (request_start sample_db half_draws None))) = sample_db /\
  committed (snd (refreshCountries all_well
                    (request_start sample_db half_draws None)))
  = refreshed sample_rates "2026-01-01 00:00:00" two_countries half_draws sample_db.
Proof.
  split.
  - destruct (refresh_is_atomic second_upsert_fails
                (Gateway.ExchangeObject (Some sample_rates)) sample_rates
                two_countries sample_db half_draws None eq_refl eq_refl eq_refl)
      as [Hfail _].
    apply Hfail. left. exists 3%nat. split; [simpl; lia | reflexivity].
  - destruct (refresh_is_atomic all_well
                (Gateway.ExchangeObject (Some sample_rates)) sample_rates
                two_countries sample_db half_draws None eq_refl eq_refl eq_refl)
      as [_ Hok].
    apply Hok; [intros k _; reflexivity | reflexivity].
Defined.

(** ** Gateway failures *)

(** The gateway failures the handler recognises: when a fetch is rejected,
    a body is empty, the [rates] member is missing or falsy, or the country
    payload is not an array, the refresh answers 503 "External data source
    unavailable" and has made no round trip to the store: no connection
    taken, both tables and the image untouched. *)
Theorem gateway_failure_answers_503 (rt : runtime) (d : Store.database) (g : rand)
    (img : option summary_image) :
  external_unavailable rt ->
  let w' := snd (refreshCountries rt (request_start d g img)) in
  (exists details,
     response w'
     = Some (Http.mkResponse 503
               (Http.ErrorBody "External data source unavailable" (Some details)))) /\
  committed w' = d /\
  store_calls w' = 0%nat /\
  connection w' = None /\
  image w' = img.
Proof.
  intros Hbad w'. subst w'.
  unfold refreshCountries, request_start, try_catch, bind, Promise_all.
  destruct Hbad as [u H | u H | H | H | H | H]; rewrite H.
  - destruct (country_get rt) as [uc | c]; cbn;
      (split; [eexists; reflexivity | auto]).
  - destruct (exchange_get rt) as [ue | e]; cbn;
      (split; [eexists; reflexivity | auto]).
  - destruct (country_get rt) as [uc | c]; cbn;
      (split; [eexists; reflexivity | auto]).
  - destruct (country_get rt) as [uc | c]; cbn;
      (split; [eexists; reflexivity | auto]).
  - destruct (exchange_get rt) as [ue | [| [rates |] | own]]; cbn;
      (split; [eexists; reflexivity | auto]).
  - destruct (exchange_get rt) as [ue | [| [rates |] | own]]; cbn;
      (split; [eexists; reflexivity | auto]).
Qed.

Lemma gateway_failure_answers_503_witness :
  response (snd (refreshCountries rates_down (request_start sample_db half_draws None)))
  = Some (Http.mkResponse 503
            (Http.ErrorBody "External data source unavailable"
               (Some "Could not fetch data from Exchange Rate API"))) /\
  committed (snd (refreshCountries rates_down (request_start sample_db half_draws None)))
  = sample_db.
Proof.
  destruct (gateway_failure_answers_503 rates_down sample_db half_draws None)
    as ((details & Hresp) & Hdb & _).
  - apply (exchange_rejected rates_down
             (Some "https://open.er-api.com/v6/latest/USD")). reflexivity.
  - split; [reflexivity | exact Hdb].
Defined.

(** Every body whose [rates] member is truthy passes the shape test,
    mapping or not: with an array of descriptors and no failure the
    refresh is committed and answered 200. *)
Lemma other_rates_pass_the_shape_test (rt : runtime) (own : gmap string Q)
    (l : list Gateway.country) (d : Store.database) (g : rand)
    (img : option summary_image) :
  exchange_get rt = Gateway.Resolved (Gateway.ExchangeOtherRates own) ->
  country_get rt = Gateway.Resolved (Gateway.CountryArray l) ->
  (forall k, (k < List.length l + 5)%nat -> store_faults rt k = false) ->
  render_fault rt = false ->
  let w' := snd (refreshCountries rt (request_start d g img)) in
  response w' = Some (refresh_done (List.length l) (now_iso rt)) /\
  committed w' = refreshed own (dbTimestamp_of (now_iso rt)) l g d.
Proof.
  intros Hex Hco Hq FR w'.
  destruct (refresh_run rt _ own l d g img Hex eq_refl Hco)
    as [(_ & _ & Hdb & _ & Hresp) | ([(k & Hk & Fk) | Fr] & _)].
  - split; [exact Hresp | exact Hdb].
  - rewrite (Hq k Hk) in Fk. discriminate.
  - rewrite FR in Fr. discriminate.
Qed.

(** C4, the defect: the rate gateway answers a body whose [rates] member
    is the number 5, which is no rates mapping; the refresh does not
    answer 503: it takes a connection, upserts both countries without a
    rate, writes the status row, commits and answers 200. *)
Lemma rates_that_are_no_mapping_are_written :
  let w' := snd (refreshCountries rates_is_a_number
                   (request_start empty_db half_draws None)) in
  response w' = Some (refresh_done 2 "2026-01-01T00:00:00.000Z") /\
  store_calls w' = 7%nat /\
  map Store.name (Store.countries (committed w')) = ["Testland"; "Zeroland"] /\
  map Store.exchange_rate (Store.countries (committed w')) = [None; None] /\
  Store.status (committed w')
  = Some (Store.mkStatus 2 (Some "2026-01-01 00:00:00")).
Proof. vm_compute. repeat split. Qed.

(** ** The status count *)

(** C5, the defect: on an empty table, a refresh over two descriptors
    named "France" and "FRANCE" succeeds, writes 2 into the status row and
    leaves a single row in the table. *)
Lemma status_count_exceeds_rows_on_collision :
  let w' := snd (refreshCountries colliding (request_start empty_db half_draws None)) in
  response w' = Some (refresh_done 2 "2026-01-01T00:00:00.000Z") /\
  Store.status (committed w')
  = Some (Store.mkStatus 2 (Some "2026-01-01 00:00:00")) /\
  List.length (Store.countries (committed w')) = 1%nat.
Proof. vm_compute. repeat split. Qed.

(** The same refresh on a table of three rows, one of them France: the
    status row says 2 while the table still holds three rows. *)
Lemma status_count_ignores_older_rows :
  let w' := snd (refreshCountries colliding (request_start sample_db half_draws None)) in
  Store.status (committed w')
  = Some (Store.mkStatus 2 (Some "2026-01-01 00:00:00")) /\
  List.length (Store.countries (committed w')) = 3%nat.
Proof. vm_compute. repeat split. Qed.

(* ===================================================================== *)
(** * Further properties of the estimator *)
(* ===================================================================== *)

(** X1: for integer bounds [min <= max] and a draw in [[0, 1)],
    [getRandomMultiplier(min, max)] returns an integer between [min] and
    [max], both included, and consumes exactly one draw. *)
Theorem getRandomMultiplier_range_bounds (min max : Z) (g : rand) :
  unit_draws g -> (min <= max)%Z ->
  (min <= fst (getRandomMultiplier_range min max g) <= max)%Z /\
  snd (getRandomMultiplier_range min max g) = mkRand (draws g) (S (used g)).
Proof.
  intros Hdraws Hle. split; [| reflexivity].
  unfold getRandomMultiplier_range, Math_random. cbn [fst].
  destruct (Hdraws (used g)) as [Hlo Hhi].
  set (u := draws g (used g)) in *.
  set (width := (max - min + 1)%Z).
  assert (Hw : (0 < width)%Z) by (unfold width; lia).
  assert (Hwq : 0 < inject_Z width).
  { change 0 with (inject_Z 0). rewrite <- Zlt_Qlt. exact Hw. }
  assert (H0 : (0 <= Qfloor (u * inject_Z width))%Z).
  { rewrite <- (Qfloor_Z 0). apply Qfloor_resp_le.
    apply Qmult_le_0_compat; [exact Hlo | apply Qlt_le_weak, Hwq]. }
  assert (H1 : (Qfloor (u * inject_Z width) < width)%Z).
  { assert (Hlt : u * inject_Z width < inject_Z width).
    { pose proof (Qmult_lt_compat_r u 1 (inject_Z width) Hwq Hhi) as Hm.
      rewrite Qmult_1_l in Hm. exact Hm. }
    pose proof (Qfloor_le (u * inject_Z width)) as Hfl.
    pose proof (Qle_lt_trans _ _ _ Hfl Hlt) as Hz.
    rewrite <- Zlt_Qlt in Hz. exact Hz. }
  unfold width in *. lia.
Qed.

Lemma getRandomMultiplier_range_bounds_witness :
  (1 <= fst (getRandomMultiplier_range 1 6 half_draws) <= 6)%Z.
Proof.
  destruct (getRandomMultiplier_range_bounds 1 6 half_draws) as [H _].
  - exact half_draws_ok.
  - lia.
  - exact H.
Defined.

(* ===================================================================== *)
(** * Further properties of the store *)
(* ===================================================================== *)

(** An upsert under a name that no row carries appends the row. *)
Lemma upsert_fresh (v : Store.country_row) (t : list Store.country_row) :
  (forall r, In r t -> Store.same_name (Store.name r) (Store.name v) = false) ->
  Store.upsert v t = (t ++ [v])%list.
Proof.
  induction t as [| a t IH]; simpl; [reflexivity |].
  intros Hall. rewrite (Hall a (or_introl eq_refl)). f_equal.
  apply IH. intros r Hr. apply Hall. right. exact Hr.
Qed.

(** X2: an upsert under a name no row carries (up to case) appends the
    row at the end; under a name some row carries it overwrites that row
    in place: the stored spelling of the name stays, every other column
    takes the new value, and no other row moves or changes. *)
Theorem upsert_appends_or_overwrites (v : Store.country_row)
    (t : list Store.country_row) :
  ((forall r, In r t -> Store.same_name (Store.name r) (Store.name v) = false) ->
   Store.upsert v t = (t ++ [v])%list) /\
  (forall (before after : list Store.country_row) (r0 : Store.country_row),
     t = (before ++ r0 :: after)%list ->
     (forall r, In r before -> Store.same_name (Store.name r) (Store.name v) = false) ->
     Store.same_name (Store.name r0) (Store.name v) = true ->
     Store.upsert v t = (before ++ Store.overwrite r0 v :: after)%list /\
     Store.name (Store.overwrite r0 v) = Store.name r0 /\
     same_columns (Store.overwrite r0 v) v).
Proof.
  split.
  - apply upsert_fresh.
  - intros before after r0 -> Hbefore Hr0.
    split; [| split; [reflexivity | repeat split]].
    induction before as [| b before IH]; simpl.
    + rewrite Hr0. reflexivity.
    + rewrite (Hbefore b (or_introl eq_refl)). f_equal.
      apply IH. intros r Hr. apply Hbefore. right. exact Hr.
Qed.

Lemma upsert_appends_or_overwrites_witness :
  Store.upsert (row_of "FRANCE" (Some 9)) (Store.countries sample_db)
  = [row_of "Alpha" (Some 1); row_of "Beta" None; row_of "France" (Some 9)].
Proof.
  destruct (upsert_appends_or_overwrites (row_of "FRANCE" (Some 9))
              (Store.countries sample_db)) as [_ H].
  destruct (H [row_of "Alpha" (Some 1); row_of "Beta" None] []
              (row_of "France" (Some 2))) as [Heq _].
  - reflexivity.
  - intros r Hr. simpl in Hr.
    repeat (destruct Hr as [<- | Hr]; [reflexivity |]). destruct Hr.
  - reflexivity.
  - exact Heq.
Defined.

(** A row under another name is not touched by an upsert. *)
Lemma upsert_keeps_others (v r : Store.country_row) (t : list Store.country_row) :
  In r t -> Store.same_name (Store.name r) (Store.name v) = false ->
  In r (Store.upsert v t).
Proof.
  induction t as [| a t IH]; simpl; [tauto |].
  intros [-> | Hin] Hne.
  - rewrite Hne. left. reflexivity.
  - destruct (Store.same_name (Store.name a) (Store.name v)); right; auto.
Qed.

(** An upsert keeps every stored name, letter for letter. *)
Lemma upsert_keeps_names (v r : Store.country_row) (t : list Store.country_row) :
  In r t -> exists r', In r' (Store.upsert v t) /\ Store.name r' = Store.name r.
Proof.
  induction t as [| a t IH]; simpl; [tauto |].
  intros [-> | Hin].
  - destruct (Store.same_name (Store.name r) (Store.name v)).
    + exists (Store.overwrite r v). split; [left; reflexivity | reflexivity].
    + exists r. split; [left; reflexivity | reflexivity].
  - destruct (IH Hin) as (r' & Hr' & Hn).
    destruct (Store.same_name (Store.name a) (Store.name v)).
    + exists r. split; [right; exact Hin | reflexivity].
    + exists r'. split; [right; exact Hr' | exact Hn].
Qed.

Lemma upsert_length_bounds (v : Store.country_row) (t : list Store.country_row) :
  (List.length t <= List.length (Store.upsert v t) <= S (List.length t))%nat.
Proof.
  rewrite upsert_length. destruct (existsb _ t); lia.
Qed.

Lemma upsert_all_unique (vs t : list Store.country_row) :
  Store.unique_names t -> Store.unique_names (upsert_all vs t).
Proof.
  unfold upsert_all. revert t.
  induction vs as [| v vs IH]; intros t Ht; simpl; [exact Ht |].
  apply IH, upsert_unique, Ht.
Qed.

Lemma upsert_all_keeps_names (vs t : list Store.country_row) (r : Store.country_row) :
  In r t -> exists r', In r' (upsert_all vs t) /\ Store.name r' = Store.name r.
Proof.
  unfold upsert_all. revert t r.
  induction vs as [| v vs IH]; intros t r Hin; simpl; [eauto |].
  destruct (upsert_keeps_names v r t Hin) as (r1 & H1 & Hn1).
  destruct (IH _ r1 H1) as (r2 & H2 & Hn2).
  exists r2. split; [exact H2 | congruence].
Qed.

Lemma upsert_all_length_bounds (vs t : list Store.country_row) :
  (List.length t <= List.length (upsert_all vs t)
   <= List.length t + List.length vs)%nat.
Proof.
  unfold upsert_all. revert t.
  induction vs as [| v vs IH]; intros t; simpl; [lia |].
  pose proof (IH (Store.upsert v t)) as H.
  pose proof (upsert_length_bounds v t) as Hv. lia.
Qed.

(** Rows under names that none of the upserted rows carries stay. *)
Lemma upsert_all_keeps_others (vs t : list Store.country_row) (r : Store.country_row) :
  In r t ->
  (forall v, In v vs -> Store.same_name (Store.name r) (Store.name v) = false) ->
  In r (upsert_all vs t).
Proof.
  unfold upsert_all. revert t.
  induction vs as [| v vs IH]; intros t Hin Hne; simpl; [exact Hin |].
  apply IH.
  - apply upsert_keeps_others; [exact Hin | apply Hne; left; reflexivity].
  - intros v' Hv'. apply Hne. right. exact Hv'.
Qed.

(** When the upserted rows carry pairwise different names, each of them
    is in the table afterwards with all its columns. *)
Lemma upsert_all_stored (vs t : list Store.country_row) (v : Store.country_row) :
  distinct_names (map Store.name vs) -> In v vs ->
  exists r, In r (upsert_all vs t) /\
            Store.same_name (Store.name r) (Store.name v) = true /\
            same_columns r v.
Proof.
  unfold upsert_all. revert t.
  induction vs as [| v0 vs IH]; intros t Hd Hin; simpl in *; [destruct Hin |].
  destruct Hd as [Hfirst Hrest].
  destruct Hin as [-> | Hin].
  - destruct (upsert_stored v t) as (r & Hr & Hn & Hc).
    exists r. split; [| split; assumption].
    apply (upsert_all_keeps_others vs); [exact Hr |].
    intros v' Hv'.
    destruct (Store.same_name (Store.name r) (Store.name v')) eqn:E; [| reflexivity].
    assert (Hvv : Store.same_name (Store.name v) (Store.name v') = true).
    { apply (same_name_trans _ (Store.name r)); [| exact E].
      rewrite same_name_sym. exact Hn. }
    rewrite (Hfirst (Store.name v') (in_map Store.name vs v' Hv')) in Hvv.
    discriminate Hvv.
  - apply IH; assumption.
Qed.

(** Rows under pairwise different names, none of them stored yet, add
    one row each. *)
Lemma upsert_all_fresh_length (vs t : list Store.country_row) :
  distinct_names (map Store.name vs) ->
  (forall r v, In r t -> In v vs ->
               Store.same_name (Store.name r) (Store.name v) = false) ->
  List.length (upsert_all vs t) = (List.length t + List.length vs)%nat.
Proof.
  unfold upsert_all. revert t.
  induction vs as [| v vs IH]; intros t Hd Hnew; simpl; [lia |].
  destruct Hd as [Hfirst Hrest].
  rewrite upsert_fresh by (intros r Hr; apply Hnew; [exact Hr | left; reflexivity]).
  rewrite IH; [rewrite length_app; simpl; lia | exact Hrest |].
  intros r v' Hr Hv'. apply in_app_or in Hr. destruct Hr as [Hr | [<- | []]].
  - apply Hnew; [exact Hr | right; exact Hv'].
  - apply Hfirst. apply in_map. exact Hv'.
Qed.

(** ** Complete runs of the refresh *)

(** The whole run of a refresh in which nothing fails before the commit:
    the image is rendered from the transaction's copy, then the commit
    decides between the complete refresh and the store as it was. *)
Lemma refresh_run_to_commit (rt : runtime) (e : Gateway.exchange_data)
    (rates : gmap string Q) (l : list Gateway.country) (d : Store.database)
    (g : rand) (img : option summary_image) :
  exchange_get rt = Gateway.Resolved e ->
  exchange_rates_of e = Some rates ->
  country_get rt = Gateway.Resolved (Gateway.CountryArray l) ->
  let n := List.length l in
  let ts := dbTimestamp_of (now_iso rt) in
  (forall k, (k < n + 4)%nat -> store_faults rt k = false) ->
  render_fault rt = false ->
  refreshCountries rt (request_start d g img)
  = (Returned tt,
     mkWorld (if store_faults rt (n + 4) then d else refreshed rates ts l g d)
       (Some (mkSession None true)) (n + 5)
       (snd (join_all rates ts l g))
       (Some (rendered rates (now_iso rt) l g d))
       (Some (if store_faults rt (n + 4) then internal_error
              else refresh_done n (now_iso rt)))).
Proof.
  intros Hex He Hco n ts Hq FR.
  assert (Hfetch : forall h w,
            try_catch (Promise_all rt) h w
            = (Returned (e, Gateway.CountryArray l), w)).
  { intros h w. unfold Promise_all. rewrite Hex, Hco. reflexivity. }
  assert (F0 : store_faults rt 0 = false) by (apply Hq; lia).
  assert (F1 : store_faults rt 1 = false) by (apply Hq; lia).
  assert (F2 : store_faults rt (2 + n) = false) by (apply Hq; lia).
  assert (F3 : store_faults rt (S (2 + n)) = false) by (apply Hq; lia).
  unfold refreshCountries, request_start. cbv zeta.
  unfold try_catch at 1.
  rewrite (bind_returned _ _ _ _ _ (Hfetch _ _)).
  cbn [fst snd country_array_of]. rewrite He.
  fold ts.
  rewrite (bind_returned _ _ _ _ _ (getConnection_ok rt _ _ _ _ _ _ F0)).
  rewrite (bind_returned _ _ _ _ _ (beginTransaction_ok rt _ _ _ _ _ _ F1)).
  cbn [released].
  destruct (refresh_loop rt rates ts l 0%Z d d false 2 g img None)
    as [[Hall Hloop] | [(j & Hj & Fj) _]].
  2:{ fold n in Hj. rewrite Hq in Fj by lia. discriminate Fj. }
  rewrite (bind_returned _ _ _ _ _ Hloop).
  rewrite Z.add_0_l. fold n.
  rewrite (bind_returned _ _ _ _ _ (connection_query_ok rt _ _ _ _ _ _ _ _ F2)).
  cbn [sql_update_status fst snd Store.countries Store.status].
  rewrite (bind_returned _ _ _ _ _ (connection_query_ok rt _ _ _ _ _ _ _ _ F3)).
  cbn [sql_select_top5 fst snd Store.countries Store.status].
  rewrite (bind_returned _ _ _ _ _ (generateSummaryImage_ok rt _ _ _ _ _ _ _ _ _ FR)).
  replace (n + 4)%nat with (S (S (2 + n))) by lia.
  replace (n + 5)%nat with (S (S (S (2 + n)))) by lia.
  destruct (store_faults rt (S (S (2 + n)))) eqn:F4.
  - rewrite (bind_thrown _ _ _ _ _ (commit_fault rt _ _ _ _ _ _ F4)).
    reflexivity.
  - rewrite (bind_returned _ _ _ _ _ (commit_ok rt _ _ _ _ _ _ _ F4)).
    reflexivity.
Qed.

(** Whatever happens, a refresh leaves either the store it found or the
    complete refresh of it. *)
Lemma refresh_outcome (rt : runtime) (d : Store.database) (g : rand)
    (img : option summary_image) :
  let w' := snd (refreshCountries rt (request_start d g img)) in
  committed w' = d \/
  exists rates l,
    (exists e, exchange_get rt = Gateway.Resolved e /\
               exchange_rates_of e = Some rates) /\
    country_get rt = Gateway.Resolved (Gateway.CountryArray l) /\
    committed w' = refreshed rates (dbTimestamp_of (now_iso rt)) l g d.
Proof.
  intros w'.
  destruct (exchange_get rt) as [ue | e] eqn:Hex;
    [left; subst w';
     unfold refreshCountries, request_start, try_catch, bind, Promise_all;
     rewrite Hex; destruct (country_get rt); reflexivity |].
  destruct (exchange_rates_of e) as [rates |] eqn:He;
    destruct (country_get rt) as [uc | [| | l]] eqn:Hco;
    try (left; subst w';
         unfold refreshCountries, request_start, try_catch, bind, Promise_all;
         rewrite Hex, Hco; cbn [fst snd ret]; try rewrite He; reflexivity).
  destruct (refresh_run rt e rates l d g img Hex He Hco)
    as [(_ & _ & Hdb & _) | (_ & Hdb & _)].
  - right. exists rates, l. split; [exists e; split; [reflexivity | exact He] |].
    split; [reflexivity | exact Hdb].
  - left. exact Hdb.
Qed.

Lemma join_all_names (rates : gmap string Q) (ts : string)
    (l : list Gateway.country) (g : rand) :
  map Store.name (fst (join_all rates ts l g)) = map Gateway.name l.
Proof.
  revert g. induction l as [| c l IH]; intros g; simpl; [reflexivity |].
  destruct (upsert_values_derived rates ts c g) as (Hn & _).
  destruct (upsert_values rates ts c g) as [v g1].
  specialize (IH g1). destruct (join_all rates ts l g1) as [vs g2].
  simpl in *. rewrite Hn, IH. reflexivity.
Qed.

Lemma join_all_length (rates : gmap string Q) (ts : string)
    (l : list Gateway.country) (g : rand) :
  List.length (fst (join_all rates ts l g)) = List.length l.
Proof.
  rewrite <- (length_map Store.name), join_all_names, length_map. reflexivity.
Qed.

(** Every descriptor has its row among the joined ones, built from the
    random supply as it stood when its turn came. *)
Lemma join_all_covers (rates : gmap string Q) (ts : string)
    (l : list Gateway.country) (g : rand) (c : Gateway.country) :
  In c l ->
  exists g0, In (fst (upsert_values rates ts c g0)) (fst (join_all rates ts l g)).
Proof.
  revert g. induction l as [| c0 l IH]; intros g Hin; simpl in *; [destruct Hin |].
  destruct (upsert_values rates ts c0 g) as [v g1] eqn:Ev.
  destruct Hin as [-> | Hin].
  - exists g. rewrite Ev. destruct (join_all rates ts l g1). left. reflexivity.
  - destruct (IH g1 Hin) as (g0 & H0). exists g0.
    destruct (join_all rates ts l g1). right. exact H0.
Qed.

(* ===================================================================== *)
(** * Further properties of the refresh *)
(* ===================================================================== *)

(** X3: the unique key on names survives every refresh, whatever fails. *)
Theorem refresh_keeps_unique_names (rt : runtime) (d : Store.database) (g : rand)
    (img : option summary_image) :
  Store.unique_names (Store.countries d) ->
  Store.unique_names
    (Store.countries (committed (snd (refreshCountries rt (request_start d g img))))).
Proof.
  intros Hu.
  destruct (refresh_outcome rt d g img) as [-> | (rates & l & _ & _ & ->)];
    [exact Hu |].
  unfold refreshed. cbn [Store.countries]. apply upsert_all_unique, Hu.
Qed.

Lemma refresh_keeps_unique_names_witness :
  Store.unique_names
    (Store.countries
       (committed (snd (refreshCountries all_well
                          (request_start sample_db half_draws None))))).
Proof.
  apply (refresh_keeps_unique_names all_well sample_db half_draws None).
  exact sample_db_unique.
Defined.

(** X4: a refresh never removes a row and never respells a stored name:
    every name stored before is stored afterwards, letter for letter, and
    the table does not shrink. *)
Theorem refresh_never_removes_rows (rt : runtime) (d : Store.database) (g : rand)
    (img : option summary_image) :
  let d' := committed (snd (refreshCountries rt (request_start d g img))) in
  (forall r, In r (Store.countries d) ->
     exists r', In r' (Store.countries d') /\ Store.name r' = Store.name r) /\
  (List.length (Store.countries d) <= List.length (Store.countries d'))%nat.
Proof.
  intros d'. subst d'.
  destruct (refresh_outcome rt d g img) as [-> | (rates & l & _ & _ & ->)].
  - split; [eauto | lia].
  - unfold refreshed. cbn [Store.countries]. split.
    + intros r Hr. apply upsert_all_keeps_names, Hr.
    + apply upsert_all_length_bounds.
Qed.

(** X5: when the descriptors carry pairwise different names (up to case)
    and none of them is stored yet, a refresh in which nothing fails adds
    exactly one row per descriptor; on an empty table with a status row,
    the count written to the status row is then the number of rows. *)
Theorem refresh_of_new_names_counts_rows (rt : runtime) (rates : gmap string Q)
    (l : list Gateway.country) (d : Store.database) (g : rand)
    (img : option summary_image) :
  exchange_get rt = Gateway.Resolved (Gateway.ExchangeObject (Some rates)) ->
  country_get rt = Gateway.Resolved (Gateway.CountryArray l) ->
  (forall k, (k < List.length l + 5)%nat -> store_faults rt k = false) ->
  render_fault rt = false ->
  distinct_names (map Gateway.name l) ->
  (forall r c, In r (Store.countries d) -> In c l ->
     Store.same_name (Store.name r) (Gateway.name c) = false) ->
  let d' := committed (snd (refreshCountries rt (request_start d g img))) in
  List.length (Store.countries d')
  = (List.length (Store.countries d) + List.length l)%nat /\
  (Store.countries d = [] -> Store.status d <> None ->
   exists ts, Store.status d'
              = Some (Store.mkStatus (Z.of_nat (List.length (Store.countries d'))) ts)).
Proof.
  intros Hex Hco Hq FR Hd Hnew d'. subst d'.
  rewrite (refresh_run_to_commit rt _ rates l d g img Hex eq_refl Hco)
    by (try exact FR; intros k Hk; apply Hq; lia).
  cbn [snd committed]. rewrite Hq by lia.
  set (ts := dbTimestamp_of (now_iso rt)).
  assert (Hlen : List.length (Store.countries (refreshed rates ts l g d))
                 = (List.length (Store.countries d) + List.length l)%nat).
  { unfold refreshed. cbn [Store.countries].
    rewrite upsert_all_fresh_length.
    - rewrite join_all_length. reflexivity.
    - rewrite join_all_names. exact Hd.
    - intros r v Hr Hv.
      assert (Hvn : In (Store.name v) (map Gateway.name l)).
      { rewrite <- (join_all_names rates ts l g). apply in_map. exact Hv. }
      apply in_map_iff in Hvn. destruct Hvn as (c & Hc & Hcin).
      rewrite <- Hc. apply Hnew; assumption. }
  split; [exact Hlen |].
  intros Hempty Hstatus. rewrite Hlen, Hempty. cbn [List.length Nat.add].
  unfold refreshed. cbn [Store.status].
  destruct (Store.status d) as [s |]; [| contradiction].
  eexists. reflexivity.
Qed.

Lemma refresh_of_new_names_counts_rows_witness :
  List.length
    (Store.countries
       (committed (snd (refreshCountries all_well
                          (request_start empty_db half_draws None))))) = 2%nat.
Proof.
  destruct (refresh_of_new_names_counts_rows all_well sample_rates two_countries
              empty_db half_draws None) as [H _].
  - reflexivity.
  - reflexivity.
  - intros k _. reflexivity.
  - reflexivity.
  - simpl. repeat split; intros n' Hn'; simpl in Hn';
      repeat (destruct Hn' as [<- | Hn']; [reflexivity |]); destruct Hn'.
  - intros r c Hr. destruct Hr.
  - exact H.
Defined.

(** X6: after a refresh in which nothing fails, over descriptors with
    pairwise different names and a table that obeyed the unique key, every
    descriptor can be read back by its name in any letter case: the answer
    is a row stored under that name (up to case) carrying the currency
    code and population the join step derives, the capital, region and
    flag of the descriptor, and the timestamp of this refresh. *)
Theorem refresh_then_read_back (rt rt' : runtime) (rates : gmap string Q)
    (l : list Gateway.country) (d : Store.database) (g g' : rand)
    (img img' : option summary_image) (c : Gateway.country) (n : string) :
  exchange_get rt = Gateway.Resolved (Gateway.ExchangeObject (Some rates)) ->
  country_get rt = Gateway.Resolved (Gateway.CountryArray l) ->
  (forall k, (k < List.length l + 5)%nat -> store_faults rt k = false) ->
  render_fault rt = false ->
  store_faults rt' 0 = false ->
  Store.unique_names (Store.countries d) ->
  distinct_names (map Gateway.name l) ->
  In c l ->
  JS.toLowerCase n = JS.toLowerCase (Gateway.name c) ->
  let d' := committed (snd (refreshCountries rt (request_start d g img))) in
  exists r,
    response (snd (getCountryByName rt' n (request_start d' g' img')))
    = Some (Http.mkResponse 200 (Http.RowBody r)) /\
    JS.toLowerCase (Store.name r) = JS.toLowerCase (Gateway.name c) /\
    Store.currency_code r = joined_code c /\
    Store.population r = joined_population c /\
    Store.capital r = JS.or_null (Gateway.capital c) /\
    Store.region r = JS.or_null (Gateway.region c) /\
    Store.flag_url r = JS.or_null (Gateway.flag c) /\
    Store.last_refreshed_at r = Some (dbTimestamp_of (now_iso rt)).
Proof.
  intros Hex Hco Hq FR F' Hu Hd Hc Hn d'. subst d'.
  rewrite (refresh_run_to_commit rt _ rates l d g img Hex eq_refl Hco)
    by (try exact FR; intros k Hk; apply Hq; lia).
  cbn [snd committed]. rewrite Hq by lia.
  set (ts := dbTimestamp_of (now_iso rt)).
  destruct (join_all_covers rates ts l g c Hc) as (g0 & Hin).
  set (v := fst (upsert_values rates ts c g0)) in *.
  destruct (upsert_values_derived rates ts c g0) as (Hvn & Hvp & Hvc & Hvr & _).
  fold v in Hvn, Hvp, Hvc, Hvr.
  destruct (upsert_all_stored (fst (join_all rates ts l g)) (Store.countries d) v)
    as (r & Hr & Hsame & Hcols); [rewrite join_all_names; exact Hd | exact Hin |].
  assert (Hu' : Store.unique_names (Store.countries (refreshed rates ts l g d))).
  { unfold refreshed. cbn [Store.countries]. apply upsert_all_unique, Hu. }
  assert (Hm : Store.same_name (Store.name r) n = true).
  { apply same_name_iff. apply same_name_iff in Hsame. congruence. }
  destruct (match_is_unique n _ r Hu' Hr Hm) as (Hsel & _).
  exists r. split.
  - unfold getCountryByName, try_catch, bind.
    rewrite pool_query_run by exact F'.
    cbn [fst snd committed request_start set_store_calls].
    rewrite Hsel. reflexivity.
  - apply same_name_iff in Hsame.
    destruct Hcols as (Hcap & Hreg & Hp & Hcc & _ & _ & Hflag & Hts).
    assert (Hv : Store.capital v = JS.or_null (Gateway.capital c) /\
                 Store.region v = JS.or_null (Gateway.region c) /\
                 Store.flag_url v = JS.or_null (Gateway.flag c) /\
                 Store.last_refreshed_at v = Some ts).
    { unfold v, upsert_values.
      destruct (computeEstimatedGdp _ _ g0). repeat split. }
    destruct Hv as (Hv1 & Hv2 & Hv3 & Hv4).
    repeat split; congruence.
Qed.

Lemma refresh_then_read_back_witness :
  exists r,
    response (snd (getCountryByName quiet "TESTLAND"
                     (request_start
                        (committed (snd (refreshCountries all_well
                                           (request_start sample_db half_draws None))))
                        half_draws None)))
    = Some (Http.mkResponse 200 (Http.RowBody r)) /\
    Store.currency_code r = Some "ABC".
Proof.
  destruct (refresh_then_read_back all_well quiet sample_rates two_countries
              sample_db half_draws half_draws None None testland "TESTLAND")
    as (r & Hresp & _ & Hcode & _).
  - reflexivity.
  - reflexivity.
  - intros k _. reflexivity.
  - reflexivity.
  - reflexivity.
  - exact sample_db_unique.
  - simpl. repeat split; intros n' Hn'; simpl in Hn';
      repeat (destruct Hn' as [<- | Hn']; [reflexivity |]); destruct Hn'.
  - left. reflexivity.
  - reflexivity.
  - exists r. split; [exact Hresp | exact Hcode].
Defined.

(* ===================================================================== *)
(** * Properties of the status, the image and the startup *)
(* ===================================================================== *)

(** What [getStatus] sends when its round trip succeeds. *)
Lemma getStatus_run (rt : runtime) (toISOString : string -> string) (w : world) :
  store_faults rt (store_calls w) = false ->
  getStatus rt toISOString w
  = (Returned (match Store.status (committed w) with
               | Some s => status_object toISOString s
               | None => SentJson status_missing
               end),
     set_store_calls (S (store_calls w)) w).
Proof.
  intros H. unfold getStatus, try_catch.
  rewrite (bind_returned _ _ _ _ _ (pool_query_run rt sql_select_status w H)).
  cbn [sql_select_status fst snd].
  destruct w as [d c k g im rs]. cbn.
  destruct (Store.status d) as [s |]; [| reflexivity].
  unfold ret, status_object.
  destruct (Z.eqb_spec (Store.total_countries s) 0) as [-> | _]; reflexivity.
Qed.

(** X7: after a refresh in which nothing fails, on a store that has its
    status row, [GET /status] reports the number of descriptors the
    refresh processed, the same number the refresh answered, and the
    timestamp of that refresh. *)
Theorem refresh_then_status (rt rt' : runtime) (toISOString : string -> string)
    (rates : gmap string Q) (l : list Gateway.country) (d : Store.database)
    (g g' : rand) (img img' : option summary_image) :
  exchange_get rt = Gateway.Resolved (Gateway.ExchangeObject (Some rates)) ->
  country_get rt = Gateway.Resolved (Gateway.CountryArray l) ->
  (forall k, (k < List.length l + 5)%nat -> store_faults rt k = false) ->
  render_fault rt = false ->
  store_faults rt' 0 = false ->
  Store.status d <> None ->
  let w' := snd (refreshCountries rt (request_start d g img)) in
  response w' = Some (refresh_done (List.length l) (now_iso rt)) /\
  fst (getStatus rt' toISOString (request_start (committed w') g' img'))
  = Returned (SentStatus (Z.of_nat (List.length l))
                (Some (toISOString (dbTimestamp_of (now_iso rt))))).
Proof.
  intros Hex Hco Hq FR F' Hs w'. subst w'.
  rewrite (refresh_run_to_commit rt _ rates l d g img Hex eq_refl Hco)
    by (try exact FR; intros k Hk; apply Hq; lia).
  cbn [snd committed response]. rewrite Hq by lia.
  split; [reflexivity |].
  rewrite getStatus_run by exact F'.
  cbn [fst committed request_start]. unfold refreshed. cbn [Store.status].
  destruct (Store.status d) as [s |]; [| contradiction]. reflexivity.
Qed.

Lemma refresh_then_status_witness :
  fst (getStatus quiet (fun t => t)
         (request_start
            (committed (snd (refreshCountries all_well
                               (request_start sample_db half_draws None))))
            half_draws None))
  = Returned (SentStatus 2 (Some "2026-01-01 00:00:00")).
Proof.
  destruct (refresh_then_status all_well quiet (fun t => t) sample_rates
              two_countries sample_db half_draws half_draws None None) as [_ H].
  - reflexivity.
  - reflexivity.
  - intros k _. reflexivity.
  - reflexivity.
  - reflexivity.
  - discriminate.
  - exact H.
Defined.

(** X8: a store without its status row stays without it: [GET /status]
    answers 500 with "Status record missing from database.", and a refresh
    in which nothing fails answers 200 with its count yet writes no status
    row, so the next [GET /status] fails the same way. *)
Theorem status_row_is_never_created_by_refresh (rt rt' : runtime)
    (toISOString : string -> string) (rates : gmap string Q)
    (l : list Gateway.country) (d : Store.database) (g g' : rand)
    (img img' : option summary_image) :
  exchange_get rt = Gateway.Resolved (Gateway.ExchangeObject (Some rates)) ->
  country_get rt = Gateway.Resolved (Gateway.CountryArray l) ->
  (forall k, (k < List.length l + 5)%nat -> store_faults rt k = false) ->
  render_fault rt = false ->
  store_faults rt' 0 = false ->
  Store.status d = None ->
  let w' := snd (refreshCountries rt (request_start d g img)) in
  fst (getStatus rt' toISOString (request_start d g' img'))
  = Returned (SentJson status_missing) /\
  response w' = Some (refresh_done (List.length l) (now_iso rt)) /\
  fst (getStatus rt' toISOString (request_start (committed w') g' img'))
  = Returned (SentJson status_missing).
Proof.
  intros Hex Hco Hq FR F' Hs w'. subst w'.
  rewrite (refresh_run_to_commit rt _ rates l d g img Hex eq_refl Hco)
    by (try exact FR; intros k Hk; apply Hq; lia).
  cbn [snd committed response]. rewrite Hq by lia.
  rewrite !getStatus_run by exact F'.
  cbn [fst committed request_start]. unfold refreshed. cbn [Store.status].
  rewrite Hs. repeat split.
Qed.

Lemma status_row_is_never_created_by_refresh_witness :
  fst (getStatus quiet (fun t => t)
         (request_start
            (committed (snd (refreshCountries all_well
                               (request_start no_status_db half_draws None))))
            half_draws None))
  = Returned (SentJson status_missing).
Proof.
  destruct (status_row_is_never_created_by_refresh all_well quiet (fun t => t)
              sample_rates two_countries no_status_db half_draws half_draws
              None None) as (_ & _ & H).
  - reflexivity.
  - reflexivity.
  - intros k _. reflexivity.
  - reflexivity.
  - reflexivity.
  - reflexivity.
  - exact H.
Defined.

(** X9: a delete never touches the status row: [GET /status] answers the
    same before and after any [DELETE /countries/:name], so the reported
    count does not follow deletions. *)
Theorem status_ignores_deletes (rt rt' : runtime) (toISOString : string -> string)
    (n : string) (d : Store.database) (g g' : rand)
    (img img' : option summary_image) :
  let w' := snd (deleteCountry rt n (request_start d g img)) in
  Store.status (committed w') = Store.status d /\
  fst (getStatus rt' toISOString (request_start (committed w') g' img'))
  = fst (getStatus rt' toISOString (request_start d g' img')).
Proof.
  intros w'.
  assert (Hs : Store.status (committed w') = Store.status d).
  { subst w'. unfold deleteCountry, try_catch, bind, pool_query, round_trip.
    cbn [request_start store_calls].
    destruct (store_faults rt 0); [reflexivity |].
    cbn.
    destruct (List.length
                (List.filter (fun r => Store.same_name (Store.name r) n)
                   (Store.countries d))); reflexivity. }
  split; [exact Hs |].
  unfold getStatus, try_catch, bind, pool_query, round_trip.
  cbn [request_start store_calls].
  destruct (store_faults rt' 0); [reflexivity |].
  cbn. rewrite Hs. destruct (Store.status d); reflexivity.
Qed.

(** X10: when its three statements succeed, [initializeDatabase] keeps
    every country row and an existing status row, creates the status row
    (0, null) when it was missing, and running it again changes nothing;
    when one of the three fails the process exits with code 1 and the
    store is as it was. *)
Theorem initializeDatabase_outcome (rt : runtime) (d : Store.database) (g : rand)
    (img : option summary_image) :
  ((forall k, (k < 3)%nat -> store_faults rt k = false) ->
   initializeDatabase rt (request_start d g img)
   = Ready (mkWorld (initialized d) None 3 g img None) /\
   Store.countries (initialized d) = Store.countries d /\
   (forall s, Store.status d = Some s -> Store.status (initialized d) = Some s) /\
   Store.status (initialized d) <> None /\
   initialized (initialized d) = initialized d) /\
  ((exists k, (k < 3)%nat /\ store_faults rt k = true) ->
   exists w', initializeDatabase rt (request_start d g img) = ProcessExit 1 w' /\
              committed w' = d).
Proof.
  split.
  - intros Hq.
    assert (F0 : store_faults rt 0 = false) by (apply Hq; lia).
    assert (F1 : store_faults rt 1 = false) by (apply Hq; lia).
    assert (F2 : store_faults rt 2 = false) by (apply Hq; lia).
    split; [| split; [reflexivity | split; [| split]]].
    + unfold initializeDatabase, request_start, bind, pool_query, round_trip.
      cbn. rewrite F0. cbn. rewrite F1. cbn. rewrite F2. reflexivity.
    + intros s Hs. unfold initialized. cbn. rewrite Hs. reflexivity.
    + unfold initialized. cbn. destruct (Store.status d); discriminate.
    + unfold initialized. cbn. destruct (Store.status d); reflexivity.
  - intros (k & Hk & Fk).
    unfold initializeDatabase, request_start, bind, pool_query, round_trip. cbn.
    destruct (store_faults rt 0) eqn:F0; [eexists; split; reflexivity |]. cbn.
    destruct (store_faults rt 1) eqn:F1; [eexists; split; reflexivity |]. cbn.
    destruct (store_faults rt 2) eqn:F2; [eexists; split; reflexivity |].
    exfalso.
    destruct k as [| [| [| k]]]; [congruence | congruence | congruence | lia].
Qed.

Lemma initializeDatabase_outcome_witness :
  initializeDatabase quiet (request_start no_status_db half_draws None)
  = Ready (mkWorld empty_db None 3 half_draws None None) /\
  exists w', initializeDatabase store_down
               (request_start sample_db half_draws None) = ProcessExit 1 w' /\
             committed w' = sample_db.
Proof.
  split.
  - destruct (initializeDatabase_outcome quiet no_status_db half_draws None)
      as [H _].
    destruct H as (H & _); [intros k _; reflexivity | exact H].
  - destruct (initializeDatabase_outcome store_down sample_db
                half_draws None) as [_ H].
    apply H. exists 2%nat. split; [lia | reflexivity].
Defined.

(** The leaders shown on an image are at most five rows of the table the
    image was rendered from, best first, nulls last. *)
Lemma select_top5_facts (t : list Store.country_row) :
  (List.length (Store.select_top5 t) <= 5)%nat /\
  (forall p, In p (Store.select_top5 t) ->
     exists r, In r t /\ p = (Store.name r, Store.estimated_gdp r)) /\
  StronglySorted (fun p q => may_precede_desc (snd p) (snd q)) (Store.select_top5 t).
Proof.
  split; [| split].
  - unfold Store.select_top5. rewrite length_map. apply firstn_le_length.
  - intros p Hp. unfold Store.select_top5 in Hp.
    apply in_map_iff in Hp. destruct Hp as (r & <- & Hr).
    exists r. split; [| reflexivity].
    apply firstn_incl in Hr.
    apply (Permutation_in _
             (Permutation_sym
                (order_by_perm (Store.row_le (Store.ByGdp Store.DESC)) t))).
    exact Hr.
  - apply select_top5_desc.
Qed.

(** X11: before any image was rendered [GET /countries/image] answers 404
    "Summary image not found"; after a refresh in which nothing fails it
    serves, as image/png, the image of that refresh: the number of
    descriptors, the refresh time, and at most five (name, GDP) pairs of
    rows of the refreshed table in descending GDP order, nulls last. *)
Theorem image_follows_refresh (rt : runtime) (rates : gmap string Q)
    (l : list Gateway.country) (d : Store.database) (g : rand)
    (img : option summary_image) (fs_fault : option string) (w0 : world) :
  exchange_get rt = Gateway.Resolved (Gateway.ExchangeObject (Some rates)) ->
  country_get rt = Gateway.Resolved (Gateway.CountryArray l) ->
  (forall k, (k < List.length l + 5)%nat -> store_faults rt k = false) ->
  render_fault rt = false ->
  image w0 = None ->
  let w' := snd (refreshCountries rt (request_start d g img)) in
  fst (getCountryImage fs_fault w0) = Returned (SentJson image_not_found) /\
  exists top,
    fst (getCountryImage None w')
    = Returned (SentFile "image/png"
                  (mkImage (Z.of_nat (List.length l)) top (now_iso rt))) /\
    (List.length top <= 5)%nat /\
    (forall p, In p top ->
       exists r, In r (Store.countries (committed w')) /\
                 p = (Store.name r, Store.estimated_gdp r)) /\
    StronglySorted (fun p q => may_precede_desc (snd p) (snd q)) top.
Proof.
  intros Hex Hco Hq FR Hnone w'. subst w'. split.
  - unfold getCountryImage, fs_access. rewrite Hnone. reflexivity.
  - rewrite (refresh_run_to_commit rt _ rates l d g img Hex eq_refl Hco)
      by (try exact FR; intros k Hk; apply Hq; lia).
    cbn [snd committed]. rewrite Hq by lia.
    eexists. split; [reflexivity |].
    apply select_top5_facts.
Qed.

Lemma image_follows_refresh_witness :
  fst (getCountryImage None (request_start sample_db half_draws None))
  = Returned (SentJson image_not_found) /\
  exists top,
    fst (getCountryImage None
           (snd (refreshCountries all_well (request_start sample_db half_draws None))))
    = Returned (SentFile "image/png" (mkImage 2 top "2026-01-01T00:00:00.000Z")).
Proof.
  destruct (image_follows_refresh all_well sample_rates two_countries sample_db
              half_draws None None (request_start sample_db half_draws None))
    as (H1 & top & H2 & _).
  - reflexivity.
  - reflexivity.
  - intros k _. reflexivity.
  - reflexivity.
  - reflexivity.
  - split; [exact H1 | exists top; exact H2].
Defined.

(** X12: the image is rendered before the commit: when everything succeeds
    up to the commit and the commit fails, the refresh answers 500 and the
    store is as it was before, yet the image on disk has been replaced by
    the one of the rolled-back refresh, and [GET /countries/image] serves
    it. *)
Theorem failed_commit_still_replaces_image (rt : runtime) (rates : gmap string Q)
    (l : list Gateway.country) (d : Store.database) (g : rand)
    (img : option summary_image) :
  exchange_get rt = Gateway.Resolved (Gateway.ExchangeObject (Some rates)) ->
  country_get rt = Gateway.Resolved (Gateway.CountryArray l) ->
  (forall k, (k < List.length l + 4)%nat -> store_faults rt k = false) ->
  render_fault rt = false ->
  store_faults rt (List.length l + 4) = true ->
  let w' := snd (refreshCountries rt (request_start d g img)) in
  response w' = Some internal_error /\
  committed w' = d /\
  image w' = Some (rendered rates (now_iso rt) l g d) /\
  fst (getCountryImage None w')
  = Returned (SentFile "image/png" (rendered rates (now_iso rt) l g d)).
Proof.
  intros Hex Hco Hq FR F4 w'. subst w'.
  rewrite (refresh_run_to_commit rt _ rates l d g img Hex eq_refl Hco Hq FR).
  cbn [snd committed response image]. rewrite F4.
  repeat split.
Qed.

Lemma failed_commit_still_replaces_image_witness :
  committed (snd (refreshCountries commit_fails
                    (request_start empty_db half_draws None))) = empty_db /\
  image (snd (refreshCountries commit_fails
                (request_start empty_db half_draws None)))
  = Some (mkImage 2 [("Testland", Some (1500000000 # 2)); ("Zeroland", None)]
            "2026-01-01T00:00:00.000Z").
Proof.
  destruct (failed_commit_still_replaces_image commit_fails sample_rates
              two_countries empty_db half_draws None) as (_ & Hdb & Himg & _).
  - reflexivity.
  - reflexivity.
  - intros k Hk. simpl in Hk |- *. apply Nat.eqb_neq. lia.
  - reflexivity.
  - reflexivity.
  - split; [exact Hdb |]. rewrite Himg. vm_compute. reflexivity.
Defined.

(* ===================================================================== *)
(** * Further properties of the read and delete handlers *)
(* ===================================================================== *)

Lemma lower_eq_iff (column : option string) (p : string) :
  Store.lower_eq column p = true <->
  exists v, column = Some v /\ JS.toLowerCase v = JS.toLowerCase p.
Proof.
  unfold Store.lower_eq. destruct column as [v |].
  - rewrite same_name_iff. split.
    + intros H. exists v. split; [reflexivity | exact H].
    + intros (v' & Hv & H). injection Hv as <-. exact H.
  - split; [discriminate | intros (v & Hv & _); discriminate].
Qed.

(** The WHERE clause built from the query string selects the rows that
    pass the filters; an empty parameter filters nothing. *)
Lemma conditions_pass (region currency : option string) (r : Store.country_row) :
  forallb (fun c => Store.holds c r) (conditions region currency) = true <->
  passes region currency r.
Proof.
  unfold conditions, passes.
  destruct region as [[| a s] |], currency as [[| b s'] |];
    cbn [JS.truthy_string app forallb Store.holds andb];
    rewrite ?andb_true_iff, ?andb_true_r, ?lower_eq_iff;
    (split;
     [ intros H; split; intros p Hp Hne;
       try discriminate Hp; try (injection Hp as <-); try contradiction; tauto
     | intros [H1 H2];
       repeat match goal with
       | |- _ /\ _ => split
       | |- true = true => reflexivity
       | |- exists v, Store.region r = Some v /\ _ =>
           apply (H1 _ eq_refl); discriminate
       | |- exists v, Store.currency_code r = Some v /\ _ =>
           apply (H2 _ eq_refl); discriminate
       end ]).
Qed.

(** X13: [GET /countries] answers exactly the rows that pass the filters
    of the query string, each once whatever the sort: a region or currency
    parameter keeps the rows whose column equals it up to case, a row
    whose column is null never passes a filter on it, and an absent or
    empty parameter filters nothing; the store is left as it was. *)
Theorem getCountries_filters (rt : runtime) (region currency sort : option string)
    (d : Store.database) (g : rand) (img : option summary_image) :
  store_faults rt 0 = false ->
  let w' := snd (getCountries rt region currency sort (request_start d g img)) in
  committed w' = d /\
  exists rows,
    response w' = Some (Http.mkResponse 200 (Http.RowsBody rows)) /\
    (forall r, In r rows <-> In r (Store.countries d) /\ passes region currency r) /\
    (List.length rows <= List.length (Store.countries d))%nat /\
    (region = None \/ region = Some "" ->
     currency = None \/ currency = Some "" ->
     Permutation (Store.countries d) rows).
Proof.
  intros Hok w'. subst w'.
  unfold getCountries, try_catch, bind.
  rewrite pool_query_run by exact Hok.
  cbn [fst snd res_json res_status_json set_response response committed
       set_committed set_store_calls request_start].
  split; [destruct d; reflexivity |].
  eexists. split; [reflexivity |].
  unfold Store.select_where.
  set (keep := fun r => forallb (fun c => Store.holds c r) (conditions region currency)).
  pose proof (order_by_perm (Store.row_le (orderBy sort))
                (List.filter keep (Store.countries d))) as Hperm.
  split; [| split].
  - intros r. split.
    + intros Hr. apply (Permutation_in _ (Permutation_sym Hperm)) in Hr.
      apply List.filter_In in Hr. destruct Hr as [Hin Hk].
      split; [exact Hin | apply conditions_pass, Hk].
    + intros [Hin Hp]. apply (Permutation_in _ Hperm).
      apply List.filter_In. split; [exact Hin | apply conditions_pass, Hp].
  - rewrite <- (Permutation_length Hperm). apply List.filter_length_le.
  - intros Hr Hc.
    assert (Hall : List.filter keep (Store.countries d) = Store.countries d).
    { assert (Hcond : conditions region currency = []).
      { unfold conditions.
        destruct Hr as [-> | ->], Hc as [-> | ->]; reflexivity. }
      unfold keep. rewrite Hcond. cbn [forallb].
      clear. induction (Store.countries d) as [| a t IH]; simpl; [reflexivity |].
      rewrite IH. reflexivity. }
    rewrite Hall in Hperm |- *. exact Hperm.
Qed.

Lemma getCountries_filters_witness :
  response (snd (getCountries quiet (Some "EUROPE") (Some "") None
                   (request_start regions_db half_draws None)))
  = Some (Http.mkResponse 200
            (Http.RowsBody [region_row "Austria" (Some "Europe");
                            region_row "Belgium" (Some "europe")])).
Proof.
  destruct (getCountries_filters quiet (Some "EUROPE") (Some "") None regions_db
              half_draws None eq_refl) as (_ & rows & Hresp & _).
  rewrite Hresp. vm_compute in Hresp. injection Hresp as <-. reflexivity.
Defined.




(** X14: [GET /countries?sort=gdp_asc] answers the selected rows, each
    once, in an order where GDP never decreases and every row with a null
    GDP stands before every row with a number. *)
Theorem gdp_asc_sorts_nulls_first (rt : runtime) (region currency : option string)
    (d : Store.database) (g : rand) (img : option summary_image) :
  store_faults rt 0 = false ->
  exists rows,
    response (snd (getCountries rt region currency (Some "gdp_asc")
                     (request_start d g img)))
    = Some (Http.mkResponse 200 (Http.RowsBody rows)) /\
    Permutation
      (List.filter
         (fun r => forallb (fun c => Store.holds c r) (conditions region currency))
         (Store.countries d))
      rows /\
    StronglySorted
      (fun r1 r2 => may_precede_asc (Store.estimated_gdp r1) (Store.estimated_gdp r2))
      rows.
Proof.
  intros Hok. unfold getCountries, try_catch, bind.
  rewrite pool_query_run by exact Hok.
  cbn [fst snd res_json res_status_json set_response response].
  eexists. split; [reflexivity |].
  change (orderBy (Some "gdp_asc")) with (Store.ByGdp Store.ASC).
  unfold Store.select_where.
  split; [apply order_by_perm |].
  eapply StronglySorted_impl;
    [| apply (order_by_sorted _ (row_le_gdp_total Store.ASC)
                (row_le_gdp_trans Store.ASC))].
  intros a b H. unfold ordered_by in H. simpl in H.
  destruct (Store.estimated_gdp a) as [x |], (Store.estimated_gdp b) as [y |];
    simpl in *; try tauto; try discriminate.
  apply Qle_bool_iff. exact H.
Qed.

Lemma gdp_asc_sorts_nulls_first_witness :
  response (snd (getCountries quiet None None (Some "gdp_asc")
                   (request_start sample_db half_draws None)))
  = Some (Http.mkResponse 200
            (Http.RowsBody [row_of "Beta" None; row_of "Alpha" (Some 1);
                            row_of "France" (Some 2)])).
Proof.
  destruct (gdp_asc_sorts_nulls_first quiet None None sample_db half_draws None
              eq_refl) as (rows & Hresp & _ & _).
  rewrite Hresp. vm_compute in Hresp. injection Hresp as <-. reflexivity.
Defined.



(** X16: when the store fails the four handlers that go through the pool
    (list, read by name, delete, status) answer 500 "Internal server
    error" with no details, and the store is as it was. *)
Theorem store_failure_answers_plain_500 (rt : runtime)
    (toISOString : string -> string) (region currency sort : option string)
    (n : string) (d : Store.database) (g : rand) (img : option summary_image) :
  store_faults rt 0 = true ->
  let w0 := request_start d g img in
  (response (snd (getCountries rt region currency sort w0)) = Some plain_500 /\
   committed (snd (getCountries rt region currency sort w0)) = d) /\
  (response (snd (getCountryByName rt n w0)) = Some plain_500 /\
   committed (snd (getCountryByName rt n w0)) = d) /\
  (response (snd (deleteCountry rt n w0)) = Some plain_500 /\
   committed (snd (deleteCountry rt n w0)) = d) /\
  (fst (getStatus rt toISOString w0) = Returned (SentJson plain_500) /\
   committed (snd (getStatus rt toISOString w0)) = d).
Proof.
  intros F w0. subst w0.
  unfold getCountries, getCountryByName, deleteCountry, getStatus,
    try_catch, bind, pool_query, round_trip.
  cbn [request_start store_calls]. rewrite F. cbn. repeat split.
Qed.

Lemma store_failure_answers_plain_500_witness :
  response (snd (deleteCountry store_down "France"
                   (request_start sample_db half_draws None))) = Some plain_500 /\
  committed (snd (deleteCountry store_down "France"
                    (request_start sample_db half_draws None))) = sample_db.
Proof.
  destruct (store_failure_answers_plain_500 store_down (fun t => t) None None None
              "France" sample_db half_draws None eq_refl) as (_ & _ & H & _).
  exact H.
Defined.

Lemma filter_filter_none {A : Type} (f h : A -> bool) (t : list A) :
  (forall x, f x = true -> h x = false) ->
  List.filter f (List.filter h t) = [].
Proof.
  intros H. induction t as [| a t IH]; simpl; [reflexivity |].
  destruct (h a) eqn:Eh; simpl; [| exact IH].
  destruct (f a) eqn:Ef; [| exact IH].
  rewrite (H a Ef) in Eh. discriminate.
Qed.

(** X17: after a delete went through, no row answers to that name in any
    letter case: reading it gives 404 "Country not found", deleting it
    again gives 404 and changes nothing; the rows under other names are
    all still there. *)
Theorem delete_then_not_found (rt rt' : runtime) (n n' : string)
    (d : Store.database) (g g' : rand) (img img' : option summary_image) :
  store_faults rt 0 = false ->
  store_faults rt' 0 = false ->
  JS.toLowerCase n' = JS.toLowerCase n ->
  let d' := committed (snd (deleteCountry rt n (request_start d g img))) in
  let w1 := request_start d' g' img' in
  response (snd (getCountryByName rt' n' w1)) = Some country_not_found /\
  response (snd (deleteCountry rt' n' w1)) = Some country_not_found /\
  committed (snd (deleteCountry rt' n' w1)) = d' /\
  (forall r, In r (Store.countries d) ->
     JS.toLowerCase (Store.name r) <> JS.toLowerCase n ->
     In r (Store.countries d')).
Proof.
  intros F F' Hn d' w1.
  assert (Hd' : d' = Store.mkDb
                       (List.filter (fun r => negb (Store.same_name (Store.name r) n))
                          (Store.countries d))
                       (Store.status d)).
  { subst d'. unfold deleteCountry, try_catch, bind.
    rewrite pool_query_run by exact F.
    cbn [fst snd committed request_start set_store_calls Store.delete_by_name].
    destruct (List.length _); reflexivity. }
  assert (Hnone : forall r, In r (Store.countries d') ->
                            Store.same_name (Store.name r) n' = false).
  { intros r Hr. rewrite Hd' in Hr. cbn in Hr.
    apply List.filter_In in Hr. destruct Hr as [_ Hr].
    apply negb_true_iff in Hr.
    apply (same_name_false_l _ n); [exact Hr |].
    apply same_name_iff. symmetry. exact Hn. }
  destruct (no_match n' _ Hnone) as [Hsel Hdel].
  subst w1. unfold getCountryByName, deleteCountry, try_catch, bind.
  rewrite !pool_query_run by exact F'.
  cbn [fst snd committed request_start set_store_calls].
  rewrite Hsel, Hdel. cbn.
  split; [reflexivity |]. split; [reflexivity |].
  split; [destruct d'; reflexivity |].
  intros r Hr Hne. rewrite Hd'. cbn. apply List.filter_In.
  split; [exact Hr |]. apply negb_true_iff.
  destruct (Store.same_name (Store.name r) n) eqn:E; [| reflexivity].
  apply same_name_iff in E. contradiction.
Qed.

Lemma delete_then_not_found_witness :
  response (snd (getCountryByName quiet "FRANCE"
                   (request_start
                      (committed (snd (deleteCountry quiet "france"
                                         (request_start sample_db half_draws None))))
                      half_draws None)))
  = Some country_not_found.
Proof.
  destruct (delete_then_not_found quiet quiet "france" "FRANCE" sample_db
              half_draws half_draws None None eq_refl eq_refl eq_refl)
    as (H & _).
  exact H.
Defined.

(** X18: when a fetch is rejected, the details of the 503 name the source
    by the URL carried by the rejection that [Promise.all] reports:
    "Rest Countries API" when that URL contains "restcountries",
    "Exchange Rate API" in every other case, also for a rejection without
    request configuration, whichever fetch it came from. *)
Theorem rejection_is_attributed_by_url (rt : runtime) (d : Store.database)
    (g : rand) (img : option summary_image) (u : option string) :
  first_rejection rt = Some u ->
  response (snd (refreshCountries rt (request_start d g img)))
  = Some (Http.mkResponse 503
            (Http.ErrorBody "External data source unavailable"
               (Some (match u with
                      | Some url =>
                          if JS.includes "restcountries" url
                          then "Could not fetch data from Rest Countries API"
                          else "Could not fetch data from Exchange Rate API"
                      | None => "Could not fetch data from Exchange Rate API"
                      end)))).
Proof.
  unfold first_rejection. intros H.
  unfold refreshCountries, request_start, try_catch, bind, Promise_all.
  destruct (exchange_get rt) as [ue | e], (country_get rt) as [uc | c];
    try discriminate H; injection H as <-; cbn;
    repeat match goal with
    | |- context [country_settles_first rt] => destruct (country_settles_first rt)
    | |- context [match ?x with Some _ => _ | None => _ end] => destruct x
    | |- context [JS.includes ?a ?b] => destruct (JS.includes a b)
    end; reflexivity.
Qed.

Lemma rejection_is_attributed_by_url_witness :
  response (snd (refreshCountries countries_down_no_config
                   (request_start sample_db half_draws None)))
  = Some (Http.mkResponse 503
            (Http.ErrorBody "External data source unavailable"
               (Some "Could not fetch data from Exchange Rate API"))).
Proof.
  apply (rejection_is_attributed_by_url countries_down_no_config sample_db
           half_draws None None).
  reflexivity.
Defined.

(** ** The stored timestamp *)

Lemma substring_over_prefix (a b : string) (n : nat) :
  String.substring 0 (String.length a + n) (a ++ b) = a ++ String.substring 0 n b.
Proof.
  induction a as [| c a IH]; simpl; [reflexivity |].
  rewrite IH. reflexivity.
Qed.

Lemma substring_whole (a : string) :
  String.substring 0 (String.length a) a = a.
Proof.
  induction a as [| c a IH]; simpl; [reflexivity |].
  rewrite IH. reflexivity.
Qed.

Lemma substring_exact_prefix (a b : string) :
  String.substring 0 (String.length a) (a ++ b) = a.
Proof.
  induction a as [| c a IH]; simpl; [destruct b; reflexivity |].
  rewrite IH. reflexivity.
Qed.

Lemma replace_first_after (x y : ascii) (a b : string) :
  ~ In x (list_ascii_of_string a) ->
  JS.replace_first x y (a ++ String x b) = a ++ String y b.
Proof.
  induction a as [| c a IH]; simpl; intros Hno.
  - rewrite Ascii.eqb_refl. reflexivity.
  - destruct (Ascii.eqb_spec c x) as [-> | Hne]; [exfalso; apply Hno; left; reflexivity |].
    rewrite IH; [reflexivity |]. intros Hin. apply Hno. right. exact Hin.
Qed.

(** X19: for a timestamp in the shape [toISOString] gives, a 10-character
    date without "T", a "T", an 8-character time and whatever follows, the
    value stored in the DATETIME columns is the date, a space and the
    time: the fraction and the zone designator are cut off. *)
Theorem dbTimestamp_of_iso (date time rest : string) :
  String.length date = 10%nat -> String.length time = 8%nat ->
  ~ In "T"%char (list_ascii_of_string date) ->
  dbTimestamp_of (date ++ "T" ++ time ++ rest) = date ++ " " ++ time.
Proof.
  intros Hd Ht Hno. unfold dbTimestamp_of, JS.slice0.
  change 19%nat with (10 + 9)%nat. rewrite <- Hd.
  rewrite substring_over_prefix.
  change 9%nat with (1 + 8)%nat.
  change ("T" ++ time ++ rest) with (String "T" (time ++ rest)).
  cbn [String.substring Nat.add]. rewrite <- Ht, substring_exact_prefix.
  apply replace_first_after. exact Hno.
Qed.

Lemma dbTimestamp_of_iso_witness :
  dbTimestamp_of "2026-11-02T08:04:11.123Z" = "2026-11-02 08:04:11".
Proof.
  apply (dbTimestamp_of_iso "2026-11-02" "08:04:11" ".123Z").
  - reflexivity.
  - reflexivity.
  - simpl. intros H.
    repeat (destruct H as [H | H]; [discriminate H |]). exact H.
Defined.
